(** * Customers service: cache-aside data access over a tenant-scoped store

    A shallow embedding of [src/index.js]: the five customer routes
    (list, get one, create, update, stats), the Redis cache they consult
    and the SQL statements they send to the [customers] relation.

    Conventions.
    - Requests are handled one at a time, each at a time [now] (seconds);
      it is the clock both of Redis expiry and of [CURRENT_TIMESTAMP].
    - Strings are byte strings in UTF-8; a JS number is the integer value
      of a double, or not a finite number.
    - A value cached by [JSON.stringify] and read back by [JSON.parse] is
      represented by the response body itself: both paths put the same
      JSON text on the wire.
    - The store raises only on a statement it rejects; each cache command
      raises when the cache is marked as failing for it. *)

From Stdlib Require Import ZArith List Ascii String.
From stdpp Require Import gmap strings list pretty sorting.

Local Open Scope string_scope.
Local Open Scope list_scope.
Local Open Scope Z_scope.

(** ** JavaScript primitives used by the handlers *)

Module JS.

(** A JS number as the handlers see it: the integer value of a double, or
    [None] for a number that is not finite (NaN, and the infinities that
    [parseInt] gives on overlong input); the handlers pass both on alike. *)
Definition number := option Z.

(** A non-negative integer rounded to the nearest double, ties to even:
    exact up to 53 bits, otherwise the 53 leading bits rounded. *)
Definition round_even (n : Z) : Z :=
  let bits := Z.log2 n + 1 in
  if bits <=? 53 then n
  else
    let shift := bits - 53 in
    let q := Z.shiftr n shift in
    let rest := n - Z.shiftl q shift in
    let half := Z.shiftl 1 (shift - 1) in
    let q' := if (half <? rest) || ((rest =? half) && Z.odd q) then q + 1 else q in
    Z.shiftl q' shift.

(** The Number value of a mathematical integer. *)
Definition double (z : Z) : number :=
  let m := round_even (Z.abs z) in
  if m <? 2 ^ 1024 then Some (Z.sgn z * m) else None.

(** Truthiness of a possibly undefined string: [undefined] and the empty
    string are falsy. *)
Definition truthy (s : option string) : bool :=
  match s with
  | Some (String _ _) => true
  | _ => false
  end.

(** [s || d] on a possibly undefined string. *)
Definition or_else (s : option string) (d : string) : string :=
  match s with
  | Some (String c r) => String c r
  | _ => d
  end.

(** Destructuring default [{ x = d }]: only [undefined] takes the
    default.  The default numbers 50 and 0 are carried by their decimal
    text, which is what both the template literal and [parseInt] see. *)
Definition with_default (s : option string) (d : string) : string :=
  match s with
  | Some v => v
  | None => d
  end.

(** White space and line terminators skipped by [parseInt]: the one-byte
    code points TAB, LF, VT, FF, CR and SP ... *)
Definition is_white_space (c : ascii) : bool :=
  let n := Z.of_nat (nat_of_ascii c) in
  ((9 <=? n) && (n <=? 13)) || (n =? 32).

(** ... and, in UTF-8, U+00A0 ... *)
Definition is_white_space2 (c d : ascii) : bool :=
  (Z.of_nat (nat_of_ascii c) =? 194) && (Z.of_nat (nat_of_ascii d) =? 160).

(** ... U+1680, U+2000 to U+200A, U+2028, U+2029, U+202F, U+205F, U+3000
    and U+FEFF. *)
Definition is_white_space3 (c d e : ascii) : bool :=
  let x := Z.of_nat (nat_of_ascii c) in
  let y := Z.of_nat (nat_of_ascii d) in
  let z := Z.of_nat (nat_of_ascii e) in
  ((x =? 225) && (y =? 154) && (z =? 128))
  || ((x =? 226) && (y =? 128)
      && (((128 <=? z) && (z <=? 138)) || (z =? 168) || (z =? 169) || (z =? 175)))
  || ((x =? 226) && (y =? 129) && (z =? 159))
  || ((x =? 227) && (y =? 128) && (z =? 128))
  || ((x =? 239) && (y =? 187) && (z =? 191)).

(** The first byte of a white space of more than one byte. *)
Definition starts_white_space (c : ascii) : bool :=
  let n := Z.of_nat (nat_of_ascii c) in
  (n =? 194) || (n =? 225) || (n =? 226) || (n =? 227) || (n =? 239).

Fixpoint trim_start (s : string) : string :=
  match s with
  | String c r =>
      if is_white_space c then trim_start r
      else if starts_white_space c then
        match r with
        | String d r2 =>
            if is_white_space2 c d then trim_start r2
            else
              match r2 with
              | String e r3 => if is_white_space3 c d e then trim_start r3 else s
              | EmptyString => s
              end
        | EmptyString => s
        end
      else s
  | EmptyString => EmptyString
  end.

(** Value of a character as a digit in the given radix. *)
Definition digit_of (radix : Z) (c : ascii) : option Z :=
  let n := Z.of_nat (nat_of_ascii c) in
  let v := if (48 <=? n) && (n <=? 57) then Some (n - 48)
           else if (97 <=? n) && (n <=? 122) then Some (n - 87)
           else if (65 <=? n) && (n <=? 90) then Some (n - 55)
           else None in
  match v with
  | Some d => if d <? radix then Some d else None
  | None => None
  end.

(** Longest prefix of digits, read left to right; [acc] is [None] until
    a first digit has been seen. *)
Fixpoint parse_digits (radix : Z) (acc : option Z) (s : string) : option Z :=
  match s with
  | String c r =>
      match digit_of radix c with
      | Some d =>
          parse_digits radix
            (Some (match acc with Some a => a * radix + d | None => d end)) r
      | None => acc
      end
  | EmptyString => acc
  end.

(** [parseInt(s)] with no radix argument: leading white space, an
    optional sign, an optional [0x] prefix, then the longest run of
    digits; NaN when there is none, else the Number value of the integer
    read. *)
Definition parseInt (s : string) : number :=
  let s1 := trim_start s in
  let '(sign, s2) :=
    match s1 with
    | String "-" r => (-1, r)
    | String "+" r => (1, r)
    | _ => (1, s1)
    end in
  let '(radix, s3) :=
    match s2 with
    | String "0" (String "x" r) => (16, r)
    | String "0" (String "X" r) => (16, r)
    | _ => (10, s2)
    end in
  match parse_digits radix None s3 with
  | Some n => double (sign * n)
  | None => None
  end.

End JS.

(** ** The record store *)

(** A value as it appears in a result row or a parameter list.  The
    driver hands [bigint] and [numeric] results over as text: a count or
    a sum is the [VText] of its decimal digits, and [VRat n d] stands for
    the decimal text of the numeric [n / d]. *)
Inductive value :=
| VNull
| VText (s : string)
| VInt (n : Z)
| VNum (n : JS.number)
| VTime (t : Z)
| VRat (n : Z) (d : positive).

Definition row := list (string * value).

(** Modelled from the spec: the [customers] relation of the Record Store
    contract (its schema is not part of the sources).  [address] holds
    JSON text; nullable columns are options. *)
Record Customer := {
  id : string;
  tenant_id : string;
  email : string;
  password_hash : string;
  full_name : option string;
  phone : option string;
  address : option string;
  loyalty_points : option Z;
  created_at : Z;
  updated_at : Z
}.

Definition nullable {A} (f : A -> value) (o : option A) : value :=
  match o with
  | Some a => f a
  | None => VNull
  end.

Definition column (c : Customer) (name : string) : value :=
  if String.eqb name "id" then VText (id c)
  else if String.eqb name "tenant_id" then VText (tenant_id c)
  else if String.eqb name "email" then VText (email c)
  else if String.eqb name "password_hash" then VText (password_hash c)
  else if String.eqb name "full_name" then nullable VText (full_name c)
  else if String.eqb name "phone" then nullable VText (phone c)
  else if String.eqb name "address" then nullable VText (address c)
  else if String.eqb name "loyalty_points" then nullable VInt (loyalty_points c)
  else if String.eqb name "created_at" then VTime (created_at c)
  else if String.eqb name "updated_at" then VTime (updated_at c)
  else VNull.

(** [SELECT cols] / [RETURNING cols] on one stored customer. *)
Definition project (cols : list string) (c : Customer) : row :=
  map (fun name => (name, column c name)) cols.

(** ** Statements

    The three statements whose text the handlers assemble at run time, as
    small syntax trees; [text] gives back the string the handler sends (up
    to white space).  A placeholder [$n] is the number [n]. *)

Module Sql.

Inductive set_item :=
| SetParam (column : string) (placeholder : nat)
| SetNow (column : string).

Inductive statement :=
| SelectPage (searching : bool) (limit_at offset_at : nat)
| SelectCount (searching : bool)
| Update (items : list set_item) (id_at tenant_at : nat).

Definition where_text (searching : bool) : string :=
  " WHERE tenant_id = $1" +:+
  (if searching then " AND (email ILIKE $2 OR full_name ILIKE $2)" else "").

Definition item_text (i : set_item) : string :=
  match i with
  | SetParam column n => column +:+ " = $" +:+ pretty n
  | SetNow column => column +:+ " = CURRENT_TIMESTAMP"
  end.

Fixpoint join (sep : string) (l : list string) : string :=
  match l with
  | [] => ""
  | [x] => x
  | x :: r => x +:+ sep +:+ join sep r
  end.

Definition text (s : statement) : string :=
  match s with
  | SelectPage searching l o =>
      "SELECT id, email, full_name, phone, address, created_at, updated_at FROM customers"
      +:+ where_text searching
      +:+ " ORDER BY created_at DESC LIMIT $" +:+ pretty l
      +:+ " OFFSET $" +:+ pretty o
  | SelectCount searching =>
      "SELECT COUNT(" +:+ String "*" ") FROM customers" +:+ where_text searching
  | Update items i t =>
      "UPDATE customers SET " +:+ join ", " (map item_text items)
      +:+ " WHERE id = $" +:+ pretty i +:+ " AND tenant_id = $" +:+ pretty t
      +:+ " RETURNING id, email, full_name, phone, address, loyalty_points, updated_at"
  end.

(** The value bound to [$n]. *)
Definition param (params : list value) (n : nat) : value :=
  match n with
  | O => VNull
  | S k => default VNull (params !! k)
  end.

End Sql.

Module Pg.

Definition lower (c : ascii) : ascii :=
  let n := nat_of_ascii c in
  if (65 <=? n)%nat && (n <=? 90)%nat then ascii_of_nat (n + 32) else c.

Fixpoint lowercase (s : string) : string :=
  match s with
  | String c r => String (lower c) (lowercase r)
  | EmptyString => EmptyString
  end.

(** [s LIKE p]: [%] is any run of characters, [_] any one character and
    a backslash takes the next pattern character literally.  A pattern
    that ends in a lone backslash is rejected by the store; the patterns
    built by the service end in [%], so that case is given [false]. *)
Fixpoint like (p : string) : string -> bool :=
  match p with
  | EmptyString =>
      fun s => match s with EmptyString => true | String _ _ => false end
  | String c p' =>
      if Ascii.eqb c "%" then
        fix any (s : string) : bool :=
          like p' s || match s with String _ r => any r | EmptyString => false end
      else if Ascii.eqb c "_" then
        fun s => match s with String _ r => like p' r | EmptyString => false end
      else if Ascii.eqb c "\" then
        match p' with
        | String e p'' =>
            fun s =>
              match s with
              | String x r => Ascii.eqb e x && like p'' r
              | EmptyString => false
              end
        | EmptyString => fun _ => false
        end
      else
        fun s =>
          match s with
          | String x r => Ascii.eqb c x && like p' r
          | EmptyString => false
          end
  end.

(** [s ILIKE p] in a [WHERE] clause: case is folded on both sides, and a
    NULL column does not satisfy the condition.  The folding is that of
    the letters A to Z; what the store folds beyond them depends on the
    locale of the database, which is not part of the sources. *)
Definition ilike (s : string) (p : string) : bool :=
  like (lowercase p) (lowercase s).

Definition ilike_null (s : option string) (p : string) : bool :=
  match s with
  | Some v => ilike v p
  | None => false
  end.

(** [WHERE tenant_id = $1 [AND (email ILIKE $2 OR full_name ILIKE $2)]] *)
Definition list_filter (tenant : string) (pattern : option string)
    (c : Customer) : bool :=
  String.eqb (tenant_id c) tenant &&
  match pattern with
  | Some p => ilike (email c) p || ilike_null (full_name c) p
  | None => true
  end.

(** [ORDER BY created_at DESC], as a stable insertion sort: rows with
    equal timestamps keep their stored order.  (The statement names no
    further sort key, so the store is free in the order of such rows.) *)
Fixpoint insert_desc (c : Customer) (l : list Customer) : list Customer :=
  match l with
  | [] => [c]
  | d :: r =>
      if created_at d <=? created_at c then c :: l else d :: insert_desc c r
  end.

Definition order_desc (l : list Customer) : list Customer :=
  foldr insert_desc [] l.

Definition list_columns : list string :=
  ["id"; "email"; "full_name"; "phone"; "address"; "created_at"; "updated_at"].

(** The largest [bigint]. *)
Definition bigint_max : Z := 9223372036854775807.

(** The store accepts a [LIMIT] or [OFFSET] parameter only when it is a
    non-negative [bigint]; a number that is not finite, negative or
    beyond [bigint_max] raises.  (The driver sends a number as its
    decimal text, which is exact up to [2 ^ 53]; the properties of pages
    below keep to such bounds.) *)
Definition row_count (n : JS.number) : option nat :=
  match n with
  | Some z => if (0 <=? z) && (z <=? bigint_max) then Some (Z.to_nat z) else None
  | None => None
  end.

(** The list query; [None] when the store raises. *)
Definition select_page (tenant : string) (pattern : option string)
    (limit offset : JS.number) (rows : list Customer) : option (list row) :=
  match row_count limit, row_count offset with
  | Some l, Some o =>
      Some (map (project list_columns)
              (take l (drop o (order_desc (filter (fun c => list_filter tenant pattern c = true) rows)))))
  | _, _ => None
  end.

(** [SELECT COUNT( * )] under the same [WHERE] clause. *)
Definition select_count (tenant : string) (pattern : option string)
    (rows : list Customer) : N :=
  N.of_nat (length (filter (fun c => list_filter tenant pattern c = true) rows)).

Definition one_columns : list string :=
  ["id"; "email"; "full_name"; "phone"; "address"; "loyalty_points";
   "created_at"; "updated_at"].

(** [WHERE id = $1 AND tenant_id = $2] *)
Definition is_customer (i tenant : string) (c : Customer) : bool :=
  String.eqb (id c) i && String.eqb (tenant_id c) tenant.

Definition select_one (i tenant : string) (rows : list Customer) : list row :=
  map (project one_columns) (filter (fun c => is_customer i tenant c = true) rows).

(** [SELECT id ... WHERE tenant_id = $1 AND email = $2] *)
Definition has_email (tenant mail : string) (c : Customer) : bool :=
  String.eqb (tenant_id c) tenant && String.eqb (email c) mail.

Definition select_existing (tenant mail : string) (rows : list Customer) : list row :=
  map (project ["id"]) (filter (fun c => has_email tenant mail c = true) rows).

(** The stored table together with the sequence its ids are drawn from. *)
Record Store := {
  rows : list Customer;
  serial : N
}.

Definition created_columns : list string :=
  ["id"; "email"; "full_name"; "phone"; "address"; "created_at"].

(** [INSERT INTO customers (...) VALUES ($1..$6, CURRENT_TIMESTAMP,
    CURRENT_TIMESTAMP) RETURNING ...].  Modelled from the spec: [id] is
    an opaque identifier assigned by the store (here the next number of
    a sequence) and [loyalty_points], which the statement does not list,
    takes the column default [points_default]. *)
Definition insert (points_default : option Z) (now : Z)
    (tenant mail hash : string) (name tel addr : option string)
    (st : Store) : Store * list row :=
  let c := {| id := pretty (serial st); tenant_id := tenant; email := mail;
              password_hash := hash; full_name := name; phone := tel;
              address := addr; loyalty_points := points_default;
              created_at := now; updated_at := now |} in
  ({| rows := rows st ++ [c]; serial := N.succ (serial st) |},
   [project created_columns c]).

Definition as_text (v : value) : option string :=
  match v with
  | VText s => Some s
  | _ => None
  end.

Definition as_int (v : value) : option Z :=
  match v with
  | VInt n => Some n
  | _ => None
  end.

(** One [column = value] item of a [SET] list, applied to a row.  Only
    the columns the update statement can name are written. *)
Definition assign (c : Customer) (a : string * value) : Customer :=
  let '(name, v) := a in
  if String.eqb name "full_name" then
    {| id := id c; tenant_id := tenant_id c; email := email c;
       password_hash := password_hash c; full_name := as_text v;
       phone := phone c; address := address c;
       loyalty_points := loyalty_points c;
       created_at := created_at c; updated_at := updated_at c |}
  else if String.eqb name "phone" then
    {| id := id c; tenant_id := tenant_id c; email := email c;
       password_hash := password_hash c; full_name := full_name c;
       phone := as_text v; address := address c;
       loyalty_points := loyalty_points c;
       created_at := created_at c; updated_at := updated_at c |}
  else if String.eqb name "address" then
    {| id := id c; tenant_id := tenant_id c; email := email c;
       password_hash := password_hash c; full_name := full_name c;
       phone := phone c; address := as_text v;
       loyalty_points := loyalty_points c;
       created_at := created_at c; updated_at := updated_at c |}
  else if String.eqb name "loyalty_points" then
    {| id := id c; tenant_id := tenant_id c; email := email c;
       password_hash := password_hash c; full_name := full_name c;
       phone := phone c; address := address c;
       loyalty_points := as_int v;
       created_at := created_at c; updated_at := updated_at c |}
  else if String.eqb name "updated_at" then
    {| id := id c; tenant_id := tenant_id c; email := email c;
       password_hash := password_hash c; full_name := full_name c;
       phone := phone c; address := address c;
       loyalty_points := loyalty_points c;
       created_at := created_at c;
       updated_at := match v with VTime t => t | _ => updated_at c end |}
  else c.

Definition updated_columns : list string :=
  ["id"; "email"; "full_name"; "phone"; "address"; "loyalty_points";
   "updated_at"].

Definition item_value (now : Z) (params : list value) (i : Sql.set_item)
    : string * value :=
  match i with
  | Sql.SetParam column n => (column, Sql.param params n)
  | Sql.SetNow column => (column, VTime now)
  end.

Definition update_row (now : Z) (items : list Sql.set_item)
    (params : list value) (i tenant : string) (c : Customer) : Customer :=
  if is_customer i tenant c
  then fold_left assign (map (item_value now params) items) c
  else c.

(** Running a statement against the table; [None] when the store
    raises.  Each runner reads the parameters its statement names. *)
Definition as_number (v : value) : JS.number :=
  match v with
  | VNum n => n
  | _ => None
  end.

Definition pattern_of (searching : bool) (params : list value) : option string :=
  if searching then as_text (Sql.param params 2) else None.

Definition run_page (s : Sql.statement) (params : list value)
    (st : Store) : option (list row) :=
  match s, Sql.param params 1 with
  | Sql.SelectPage searching l o, VText tenant =>
      select_page tenant (pattern_of searching params)
        (as_number (Sql.param params l)) (as_number (Sql.param params o))
        (rows st)
  | _, _ => None
  end.

Definition run_count (s : Sql.statement) (params : list value)
    (st : Store) : option N :=
  match s, Sql.param params 1 with
  | Sql.SelectCount searching, VText tenant =>
      Some (select_count tenant (pattern_of searching params) (rows st))
  | _, _ => None
  end.

(** [UPDATE ... RETURNING ...]: every row matching the [WHERE] clause
    takes the assignments in order; the rows written are returned. *)
Definition run_update (now : Z) (s : Sql.statement) (params : list value)
    (st : Store) : option (Store * list row) :=
  match s with
  | Sql.Update items i_at t_at =>
      match Sql.param params i_at, Sql.param params t_at with
      | VText i, VText tenant =>
          Some ({| rows := map (update_row now items params i tenant) (rows st);
                   serial := serial st |},
                map (fun c => project updated_columns
                                (update_row now items params i tenant c))
                  (filter (fun c => is_customer i tenant c = true) (rows st)))
      | _, _ => None
      end
  | _ => None
  end.

Definition sum_points (l : list Z) : Z := fold_right Z.add 0 l.

(** [SELECT COUNT( * ), SUM(loyalty_points), AVG(loyalty_points) ...
    WHERE tenant_id = $1]: always one row; the aggregates skip NULLs and
    are NULL when nothing is left.  The count and the sum come as the
    text of a [bigint], the average as the text of a [numeric]. *)
Definition select_stats (tenant : string) (rows : list Customer) : row :=
  let mine := filter (fun c => String.eqb (tenant_id c) tenant = true) rows in
  let points := omap loyalty_points mine in
  [("total_customers", VText (pretty (N.of_nat (length mine))));
   ("total_loyalty_points",
     match points with
     | [] => VNull
     | _ :: _ => VText (pretty (sum_points points))
     end);
   ("avg_loyalty_points",
     match points with
     | [] => VNull
     | _ :: _ => VRat (sum_points points) (Pos.of_nat (length points))
     end)].

End Pg.

(** ** Responses, the cache and the handler monad *)

(** The JSON bodies the service sends (and caches). *)
Inductive Body :=
| Error (message : string)
| Page (customers : list row) (total limit offset : JS.number)
| Row (r : row).

Record Response := {
  status : Z;
  body : Body
}.

Definition json (b : Body) : Response := {| status := 200; body := b |}.

Module Redis.

(** The key space, each value with the time at which it expires, and
    the availability of the three commands the service issues. *)
Record t := {
  entries : gmap string (Body * Z);
  get_raises : bool;
  setex_raises : bool;
  del_raises : bool
}.

Definition live (now : Z) (e : Body * Z) : option Body :=
  if now <? snd e then Some (fst e) else None.

Definition lookup (key : string) (now : Z) (r : t) : option Body :=
  entries r !! key ≫= live now.

Definition store (key : string) (ttl : Z) (v : Body) (now : Z) (r : t) : t :=
  {| entries := <[key := (v, now + ttl)]> (entries r);
     get_raises := get_raises r; setex_raises := setex_raises r;
     del_raises := del_raises r |}.

(** [DEL key] removes the one key of that exact name. *)
Definition remove (key : string) (r : t) : t :=
  {| entries := delete key (entries r);
     get_raises := get_raises r; setex_raises := setex_raises r;
     del_raises := del_raises r |}.

End Redis.

Record World := {
  db : Pg.Store;
  redis : Redis.t
}.

(** A handler body runs over the world and either goes on with a value,
    has sent its response ([return res...]) or has thrown. *)
Inductive outcome (A : Type) :=
| Next (a : A)
| Sent (r : Response)
| Thrown.

Arguments Next {A} a.
Arguments Sent {A} r.
Arguments Thrown {A}.

Definition handler (A : Type) : Type := World -> World * outcome A.

Definition ret {A} (a : A) : handler A := fun w => (w, Next a).

Definition bind {A B} (m : handler A) (k : A -> handler B) : handler B :=
  fun w =>
    match m w with
    | (w', Next a) => k a w'
    | (w', Sent r) => (w', Sent r)
    | (w', Thrown) => (w', Thrown)
    end.

Definition send {A} (r : Response) : handler A := fun w => (w, Sent r).

Definition throw {A} : handler A := fun w => (w, Thrown).

Notation "x <- m ;; k" := (bind m (fun x => k))
  (at level 100, m at next level, right associativity).
Notation "m ;;; k" := (bind m (fun _ => k))
  (at level 100, right associativity).

(** [try { ... } catch (error) { res.status(500).json({ error: failure }) }] *)
Definition route (failure : string) (h : handler Response) (w : World)
    : World * Response :=
  match h w with
  | (w', Next r) => (w', r)
  | (w', Sent r) => (w', r)
  | (w', Thrown) => (w', {| status := 500; body := Error failure |})
  end.

Definition redis_get (key : string) (now : Z) : handler (option Body) :=
  fun w =>
    if Redis.get_raises (redis w) then (w, Thrown)
    else (w, Next (Redis.lookup key now (redis w))).

Definition redis_setex (key : string) (ttl : Z) (v : Body) (now : Z) : handler unit :=
  fun w =>
    if Redis.setex_raises (redis w) then (w, Thrown)
    else ({| db := db w; redis := Redis.store key ttl v now (redis w) |}, Next tt).

Definition redis_del (key : string) : handler unit :=
  fun w =>
    if Redis.del_raises (redis w) then (w, Thrown)
    else ({| db := db w; redis := Redis.remove key (redis w) |}, Next tt).

(** [await db.query(...)] for a statement that only reads. *)
Definition db_read {A} (q : Pg.Store -> option A) : handler A :=
  fun w =>
    match q (db w) with
    | Some a => (w, Next a)
    | None => (w, Thrown)
    end.

(** [await db.query(...)] for a statement that writes. *)
Definition db_write {A} (q : Pg.Store -> option (Pg.Store * A)) : handler A :=
  fun w =>
    match q (db w) with
    | Some (st, a) => ({| db := st; redis := redis w |}, Next a)
    | None => (w, Thrown)
    end.

(** ** Requests *)

Module ListQuery.
(** [req.query] of [GET /api/customers]. *)
Record t := {
  tenant_id : option string;
  search : option string;
  limit : option string;
  offset : option string
}.
End ListQuery.

Module CreateBody.
(** [req.body] of [POST /api/customers]; [address] is the JSON text of
    the value supplied, which is what [JSON.stringify] hands to the
    store. *)
Record t := {
  tenant_id : option string;
  email : option string;
  password : option string;
  full_name : option string;
  phone : option string;
  address : option string
}.
End CreateBody.

Module UpdateBody.
(** [req.body] of [PUT /api/customers/:id].  The outer option of a field
    is [undefined]; the inner one is JSON [null]. *)
Record t := {
  tenant_id : option string;
  full_name : option (option string);
  phone : option (option string);
  address : option string;
  loyalty_points : option (option Z)
}.
End UpdateBody.

(** ** Query builder *)

Definition search_pattern (search : option string) : string :=
  "%" +:+ JS.or_else search "" +:+ "%".

Definition list_statement (tenant : string) (search : option string)
    (limit offset : string) : Sql.statement * list value :=
  let params := [VText tenant] in
  let params :=
    if JS.truthy search then params ++ [VText (search_pattern search)]
    else params in
  (Sql.SelectPage (JS.truthy search) (length params + 1) (length params + 2),
   params ++ [VNum (JS.parseInt limit); VNum (JS.parseInt offset)]).

Definition count_statement (tenant : string) (search : option string)
    : Sql.statement * list value :=
  (Sql.SelectCount (JS.truthy search),
   if JS.truthy search then [VText tenant; VText (search_pattern search)]
   else [VText tenant]).

(** The [updates] / [params] / [paramCount] triple of the update handler. *)
Record SetList := {
  updates : list Sql.set_item;
  params : list value;
  paramCount : nat
}.

Definition push (column : string) (v : value) (b : SetList) : SetList :=
  let n := S (paramCount b) in
  {| updates := updates b ++ [Sql.SetParam column n];
     params := params b ++ [v];
     paramCount := n |}.

(** [if (field !== undefined) { ... }] *)
Definition push_defined {A} (column : string) (f : A -> value)
    (field : option A) (b : SetList) : SetList :=
  match field with
  | Some a => push column (f a) b
  | None => b
  end.

Definition set_list (u : UpdateBody.t) : SetList :=
  push_defined "loyalty_points" (nullable VInt) (UpdateBody.loyalty_points u)
    (push_defined "address" VText (UpdateBody.address u)
       (push_defined "phone" (nullable VText) (UpdateBody.phone u)
          (push_defined "full_name" (nullable VText) (UpdateBody.full_name u)
             {| updates := []; params := []; paramCount := 0 |}))).

Definition update_statement (i tenant : string) (b : SetList)
    : Sql.statement * list value :=
  (Sql.Update (updates b ++ [Sql.SetNow "updated_at"])
     (paramCount b + 1) (paramCount b + 2),
   params b ++ [VText i; VText tenant]).

(** [const { limit = 50, offset = 0 } = req.query] *)
Definition page_limit (q : ListQuery.t) : string :=
  JS.with_default (ListQuery.limit q) "50".

Definition page_offset (q : ListQuery.t) : string :=
  JS.with_default (ListQuery.offset q) "0".

(** ** Cache keys *)

Definition list_key (tenant : string) (search : option string)
    (limit offset : string) : string :=
  "customers:" +:+ tenant +:+ ":" +:+ JS.or_else search "all" +:+ ":"
  +:+ limit +:+ ":" +:+ offset.

Definition customer_key (i tenant : string) : string :=
  "customer:" +:+ i +:+ ":" +:+ tenant.

Definition stats_key (tenant : string) : string :=
  "customers:stats:" +:+ tenant.

(** The key handed to [redis.del] after a write. *)
Definition list_pattern (tenant : string) : string :=
  "customers:" +:+ tenant +:+ ":*".

Definition failed (code : Z) (message : string) : Response :=
  {| status := code; body := Error message |}.

(** [result.rows[0]] *)
Definition first_row (rs : list row) : row := default [] (head rs).

(** ** The handlers *)

Section Service.

(** [bcrypt.hash(password, 10)] and the default of the
    [loyalty_points] column are taken as given. *)
Variable bcrypt_hash : string -> string.
Variable points_default : option Z.

(** [GET /api/customers] *)
Definition list_customers (now : Z) (q : ListQuery.t) : World -> World * Response :=
  route "Failed to fetch customers"
    (let search := ListQuery.search q in
     let limit := page_limit q in
     let offset := page_offset q in
     match ListQuery.tenant_id q with
     | Some (String _ _ as tenant_id) =>
         let cacheKey := list_key tenant_id search limit offset in
         cached <- redis_get cacheKey now ;;
         match cached with
         | Some page => send (json page)
         | None =>
             let '(query, params) := list_statement tenant_id search limit offset in
             result <- db_read (Pg.run_page query params) ;;
             let '(countQuery, countParams) := count_statement tenant_id search in
             countResult <- db_read (Pg.run_count countQuery countParams) ;;
             let response :=
               Page result (JS.parseInt (pretty countResult))
                 (JS.parseInt limit) (JS.parseInt offset) in
             redis_setex cacheKey 60 response now ;;;
             ret (json response)
         end
     | _ => send (failed 400 "tenant_id is required")
     end).

(** [GET /api/customers/:id] *)
Definition get_customer (now : Z) (i : string) (tenant : option string)
    : World -> World * Response :=
  route "Failed to fetch customer"
    (match tenant with
     | Some (String _ _ as tenant_id) =>
         let cacheKey := customer_key i tenant_id in
         cached <- redis_get cacheKey now ;;
         match cached with
         | Some customer => send (json customer)
         | None =>
             result <- db_read (fun st => Some (Pg.select_one i tenant_id (Pg.rows st))) ;;
             match result with
             | [] => send (failed 404 "Customer not found")
             | r :: _ =>
                 redis_setex cacheKey 300 (Row r) now ;;;
                 ret (json (Row r))
             end
         end
     | _ => send (failed 400 "tenant_id is required")
     end).

(** [POST /api/customers] *)
Definition create_customer (now : Z) (b : CreateBody.t) : World -> World * Response :=
  route "Failed to create customer"
    (match CreateBody.tenant_id b, CreateBody.email b, CreateBody.password b with
     | Some (String _ _ as tenant_id), Some (String _ _ as email),
       Some (String _ _ as password) =>
         existing <- db_read (fun st => Some (Pg.select_existing tenant_id email (Pg.rows st))) ;;
         match existing with
         | _ :: _ => send (failed 409 "Customer already exists")
         | [] =>
             let hashedPassword := bcrypt_hash password in
             result <- db_write (fun st =>
               Some (Pg.insert points_default now tenant_id email hashedPassword
                       (CreateBody.full_name b) (CreateBody.phone b)
                       (CreateBody.address b) st)) ;;
             redis_del (list_pattern tenant_id) ;;;
             ret {| status := 201; body := Row (first_row result) |}
         end
     | _, _, _ => send (failed 400 "tenant_id, email, and password are required")
     end).

(** [PUT /api/customers/:id] *)
Definition update_customer (now : Z) (i : string) (u : UpdateBody.t)
    : World -> World * Response :=
  route "Failed to update customer"
    (match UpdateBody.tenant_id u with
     | Some (String _ _ as tenant_id) =>
         let sets := set_list u in
         match updates sets with
         | [] => send (failed 400 "No fields to update")
         | _ :: _ =>
             let '(query, params) := update_statement i tenant_id sets in
             result <- db_write (Pg.run_update now query params) ;;
             match result with
             | [] => send (failed 404 "Customer not found")
             | r :: _ =>
                 redis_del (customer_key i tenant_id) ;;;
                 redis_del (list_pattern tenant_id) ;;;
                 ret (json (Row r))
             end
         end
     | _ => send (failed 400 "tenant_id is required")
     end).

(** [GET /api/customers/stats/:tenant_id] *)
Definition customer_stats (now : Z) (tenant_id : string) : World -> World * Response :=
  route "Failed to fetch customer stats"
    (let cacheKey := stats_key tenant_id in
     cached <- redis_get cacheKey now ;;
     match cached with
     | Some stats => send (json stats)
     | None =>
         result <- db_read (fun st => Some (Pg.select_stats tenant_id (Pg.rows st))) ;;
         redis_setex cacheKey 120 (Row result) now ;;;
         ret (json (Row result))
     end).

(** The service as a state machine over the world. *)
Inductive request :=
| ListCustomers (q : ListQuery.t)
| GetCustomer (i : string) (tenant : option string)
| CreateCustomer (b : CreateBody.t)
| UpdateCustomer (i : string) (u : UpdateBody.t)
| CustomerStats (tenant : string).

Definition serve (now : Z) (r : request) : World -> World * Response :=
  match r with
  | ListCustomers q => list_customers now q
  | GetCustomer i tenant => get_customer now i tenant
  | CreateCustomer b => create_customer now b
  | UpdateCustomer i u => update_customer now i u
  | CustomerStats tenant => customer_stats now tenant
  end.

(** A run of timed requests, oldest first. *)
Fixpoint run (l : list (Z * request)) (w : World) : World :=
  match l with
  | [] => w
  | (now, r) :: l' => run l' (fst (serve now r w))
  end.

End Service.

Definition empty_world : World :=
  {| db := {| Pg.rows := []; Pg.serial := 1 |};
     redis := {| Redis.entries := ∅; Redis.get_raises := false;
                 Redis.setex_raises := false; Redis.del_raises := false |} |}.

(** ** Notions used in the statements *)

(** The values bound to the [LIMIT] and [OFFSET] placeholders of the list
    statement built for a request. *)
Definition page_bounds (tenant : string) (q : ListQuery.t) : value * value :=
  let '(query, params) :=
    list_statement tenant (ListQuery.search q) (page_limit q) (page_offset q) in
  match query with
  | Sql.SelectPage _ l o => (Sql.param params l, Sql.param params o)
  | _ => (VNull, VNull)
  end.

(** A bound that is a non-negative integer. *)
Definition clamped (v : value) : Prop :=
  exists n : Z, v = VNum (Some n) /\ 0 <= n.

(** The filter argument of the list and count statements. *)
Definition filter_pattern (search : option string) : option string :=
  if JS.truthy search then Some (search_pattern search) else None.

(** The rows a list request is about, before ordering and paging. *)
Definition matching (tenant : string) (search : option string)
    (rows : list Customer) : list Customer :=
  filter (fun c => Pg.list_filter tenant (filter_pattern search) c = true) rows.

(** The customers of a tenant. *)
Definition customers_of (tenant : string) (rows : list Customer) : list Customer :=
  filter (fun c => tenant_id c = tenant) rows.

(** The same store behind an empty cache in working order: what a request
    answers from the store alone. *)
Definition cold (w : World) : World :=
  {| db := db w; redis := redis empty_world |}.

(** A request is unaffected by the cache when it answers what the store
    alone would answer. *)
Definition store_derived (serve : World -> World * Response) (w : World) : Prop :=
  snd (serve w) = snd (serve (cold w)).

Definition points_ok (c : Customer) : Prop :=
  match loyalty_points c with
  | Some n => 0 <= n
  | None => True
  end.

(** A request that does not ask for negative loyalty points. *)
Definition asks_points_ok (r : request) : Prop :=
  match r with
  | UpdateCustomer _ u =>
      match UpdateBody.loyalty_points u with
      | Some (Some n) => 0 <= n
      | _ => True
      end
  | _ => True
  end.

(** A row of a response that shows the customer with this e-mail. *)
Definition shows (mail : string) (r : row) : Prop :=
  ("email", VText mail) ∈ r.

Definition customers_in (b : Body) : list row :=
  match b with
  | Page customers _ _ _ => customers
  | Row r => [r]
  | Error _ => []
  end.

(** What the spec asks of a partial update of one customer: a supplied
    field takes the supplied value, the others keep theirs, and
    [updated_at] is refreshed. *)
Definition patch (now : Z) (u : UpdateBody.t) (c : Customer) : Customer :=
  {| id := id c; tenant_id := tenant_id c; email := email c;
     password_hash := password_hash c;
     full_name := default (full_name c) (UpdateBody.full_name u);
     phone := default (phone c) (UpdateBody.phone u);
     address := match UpdateBody.address u with
                | Some a => Some a
                | None => address c
                end;
     loyalty_points := default (loyalty_points c) (UpdateBody.loyalty_points u);
     created_at := created_at c;
     updated_at := now |}.

Definition zero_stats : row :=
  [("total_customers", VText "0"); ("total_loyalty_points", VNull);
   ("avg_loyalty_points", VNull)].

(** A character that can start the decimal text of a positive number:
    one of [1]..[9]. *)
Definition leading (c : ascii) : Prop :=
  exists d : N, (0 < d < 10)%N /\ c = pretty_N_char d.

(** The world with the availability of the cache commands set. *)
Definition with_faults (get setex del : bool) (w : World) : World :=
  {| db := db w;
     redis := {| Redis.entries := Redis.entries (redis w);
                 Redis.get_raises := get; Redis.setex_raises := setex;
                 Redis.del_raises := del |} |}.

(** The page of a list request, as the store alone gives it; the total
    is the count read back by [parseInt]. *)
Definition page_of (tenant : string) (search : option string) (l o : Z)
    (rows : list Customer) : Body :=
  Page
    (map (project Pg.list_columns)
       (take (Z.to_nat l) (drop (Z.to_nat o)
          (Pg.order_desc (matching tenant search rows)))))
    (JS.double (Z.of_nat (length (matching tenant search rows))))
    (Some l) (Some o).

(** ** The Redis client and further notions *)

(** [retryStrategy: (times) => Math.min(times * 50, 2000)]: the delay in
    milliseconds before reconnection attempt number [times]. *)
Definition retryStrategy (times : Z) : Z := Z.min (times * 50) 2000.

(** The tenant a request is scoped to. *)
Definition tenant_of (r : request) : option string :=
  match r with
  | ListCustomers q => ListQuery.tenant_id q
  | GetCustomer _ tenant => tenant
  | CreateCustomer b => CreateBody.tenant_id b
  | UpdateCustomer _ u => UpdateBody.tenant_id u
  | CustomerStats tenant => Some tenant
  end.

(** A search text without the characters [LIKE] reads specially. *)
Fixpoint plain (s : string) : bool :=
  match s with
  | String c r =>
      negb (Ascii.eqb c "%") && negb (Ascii.eqb c "_") && negb (Ascii.eqb c "\")
      && plain r
  | EmptyString => true
  end.

(** [t] contains [s] as a substring. *)
Definition contains (s t : string) : Prop :=
  exists a b : string, t = a +:+ s +:+ b.

Fixpoint colon_free (s : string) : bool :=
  match s with
  | String c r => negb (Ascii.eqb c ":") && colon_free r
  | EmptyString => true
  end.

(** The pair that is to be unique among stored customers. *)
Definition identity (c : Customer) : string * string := (tenant_id c, email c).

Definition unique_emails (rows : list Customer) : Prop :=
  NoDup (map identity rows).

(** A row without the columns that are never to leave the store. *)
Definition public_row (r : row) : Prop :=
  ("password_hash" ∉ map fst r) /\ ("password" ∉ map fst r).

Definition public_body (b : Body) : Prop :=
  Forall public_row (customers_in b).

Definition public_cache (r : Redis.t) : Prop :=
  forall key v e, Redis.entries r !! key = Some (v, e) -> public_body v.

(** The customer a create request stores. *)
Definition created (bcrypt_hash : string -> string) (points_default : option Z)
    (now : Z) (serial : N) (tenant mail password : string)
    (b : CreateBody.t) : Customer :=
  {| id := pretty serial; tenant_id := tenant; email := mail;
     password_hash := bcrypt_hash password;
     full_name := CreateBody.full_name b; phone := CreateBody.phone b;
     address := CreateBody.address b; loyalty_points := points_default;
     created_at := now; updated_at := now |}.




(** A text of one-byte characters. *)
Fixpoint ascii_text (s : string) : bool :=
  match s with
  | String c r => (nat_of_ascii c <? 128)%nat && ascii_text r
  | EmptyString => true
  end.

(** Closes [x ∉ l] for a list of literals without [x]. *)
Ltac not_listed :=
  let H := fresh in
  intros H;
  repeat (apply elem_of_cons in H as [H|H]; [discriminate H|]);
  inversion H.

(** Unfolds the steps of a handler body. *)
Ltac run_handler :=
  unfold route, bind, send, ret, throw, redis_get, redis_setex, redis_del,
    db_read, db_write, json, failed in *.

(** * Properties *)

(** ** [parseInt] *)

Example parseInt_50 : JS.parseInt "50" = Some 50.
Proof. reflexivity. Qed.

Example parseInt_negative : JS.parseInt "-5" = Some (-5).
Proof. reflexivity. Qed.

Example parseInt_trailing : JS.parseInt " 12px" = Some 12.
Proof. reflexivity. Qed.

Example parseInt_hex : JS.parseInt "0x1f" = Some 31.
Proof. reflexivity. Qed.

Example parseInt_nan : JS.parseInt "abc" = None.
Proof. reflexivity. Qed.

Example parseInt_empty : JS.parseInt "" = None.
Proof. reflexivity. Qed.

Example parseInt_rounds :
  JS.parseInt "9007199254740993" = Some 9007199254740992
  /\ JS.parseInt "9007199254740995" = Some 9007199254740996
  /\ JS.parseInt "-18014398509481985" = Some (-18014398509481984).
Proof. repeat split; vm_compute; reflexivity. Qed.

Example parseInt_no_break_space :
  JS.parseInt (String "194" (String "160" "12")) = Some 12
  /\ JS.parseInt (String "239" (String "187" (String "191" " 7"))) = Some 7.
Proof. split; vm_compute; reflexivity. Qed.

Section ParseDecimal.

Lemma digit_of_pretty (d : N) :
  (d < 10)%N -> JS.digit_of 10 (pretty_N_char d) = Some (Z.of_N d).
Proof.
  intros Hd.
  destruct d as [|p]; [reflexivity|].
  do 4 (destruct p as [p|p|]; try reflexivity; try lia).
Qed.

(** Reading back the digits that [pretty] writes in front of [s]. *)
Lemma parse_digits_pretty_go (x : N) :
  forall s, (0 < x)%N ->
    JS.parse_digits 10 None (pretty_N_go x s)
    = JS.parse_digits 10 (Some (Z.of_N x)) s.
Proof.
  induction (N.lt_wf_0 x) as [x _ IH]. intros s Hx.
  rewrite pretty_N_go_step by assumption.
  assert (Hm : (x `mod` 10 < 10)%N) by (apply N.mod_lt; lia).
  destruct (decide (x `div` 10 = 0)%N) as [H0|H0].
  - rewrite H0, pretty_N_go_0. cbn [JS.parse_digits].
    rewrite digit_of_pretty by assumption.
    do 2 f_equal. rewrite (N.div_mod x 10) at 2 by lia. lia.
  - rewrite IH; [|apply N.div_lt; lia|apply N.neq_0_lt_0; assumption].
    cbn [JS.parse_digits]. rewrite digit_of_pretty by assumption.
    do 2 f_equal. rewrite (N.div_mod x 10) at 3 by lia. lia.
Qed.

(** The text of a positive number starts with one of [1]..[9]. *)
Lemma pretty_go_leading (x : N) :
  forall s, (0 < x)%N ->
    exists c r, leading c /\ pretty_N_go x s = String c r.
Proof.
  induction (N.lt_wf_0 x) as [x _ IH]. intros s Hx.
  rewrite pretty_N_go_step by assumption.
  destruct (decide (x `div` 10 = 0)%N) as [H0|H0].
  - rewrite H0, pretty_N_go_0. exists (pretty_N_char (x `mod` 10)), s. split; [|reflexivity].
    exists (x `mod` 10)%N. split; [|reflexivity].
    assert (x `mod` 10 < 10)%N by (apply N.mod_lt; lia).
    assert (x = x `mod` 10)%N by (rewrite (N.div_mod x 10) at 1 by lia; lia).
    lia.
  - apply IH; [apply N.div_lt; lia|apply N.neq_0_lt_0; assumption].
Qed.

Lemma leading_cases (c : ascii) :
  leading c ->
  c = "1"%char \/ c = "2"%char \/ c = "3"%char \/ c = "4"%char \/ c = "5"%char
  \/ c = "6"%char \/ c = "7"%char \/ c = "8"%char \/ c = "9"%char.
Proof.
  intros (d & Hd & ->).
  destruct d as [|p]; [lia|].
  do 4 (destruct p as [p|p|]; try lia; auto 10).
Qed.

Lemma parseInt_leading (c : ascii) (r : string) :
  leading c ->
  JS.parseInt (String c r)
  = from_option JS.double None (JS.parse_digits 10 None (String c r))
  /\ JS.parseInt (String "-" (String c r))
     = from_option (fun n => JS.double (- n)) None
         (JS.parse_digits 10 None (String c r)).
Proof.
  intros Hc. apply leading_cases in Hc.
  assert (Hone : forall o : option Z,
             match o with Some n => JS.double (1 * n) | None => None end
             = from_option JS.double None o)
    by (intros [n|]; [cbn [from_option]; f_equal; lia|reflexivity]).
  assert (Hneg : forall o : option Z,
             match o with Some n => JS.double (-1 * n) | None => None end
             = from_option (fun n => JS.double (- n)) None o)
    by (intros [n|]; [cbn [from_option]; f_equal; lia|reflexivity]).
  destruct Hc as [->|[->|[->|[->|[->|[->|[->|[->| ->]]]]]]]];
    (split; [apply Hone | apply Hneg]).
Qed.

(** [parseInt] reads the decimal text of a natural number as its Number
    value ... *)
Lemma parseInt_pretty_N (n : N) : JS.parseInt (pretty n) = JS.double (Z.of_N n).
Proof.
  unfold pretty, pretty_N. destruct (decide (n = 0)%N) as [->|Hn]; [reflexivity|].
  destruct (pretty_go_leading n "") as (c & r & Hc & Heq); [lia|].
  rewrite Heq. rewrite (proj1 (parseInt_leading c r Hc)), <- Heq.
  rewrite parse_digits_pretty_go by lia. reflexivity.
Qed.

(** ... and likewise for any integer, negative ones included. *)
Lemma parseInt_pretty_Z (z : Z) : JS.parseInt (pretty z) = JS.double z.
Proof.
  destruct z as [|p|p]; [reflexivity| |].
  - change (pretty (Z.pos p)) with (pretty (N.pos p)).
    rewrite parseInt_pretty_N. reflexivity.
  - change (pretty (Z.neg p)) with ("-" +:+ pretty (N.pos p)).
    unfold pretty, pretty_N. destruct (decide (N.pos p = 0)%N) as [|_]; [lia|].
    destruct (pretty_go_leading (N.pos p) "") as (c & r & Hc & Heq); [lia|].
    rewrite Heq. change ("-" +:+ String c r) with (String "-" (String c r)).
    rewrite (proj2 (parseInt_leading c r Hc)), <- Heq.
    rewrite parse_digits_pretty_go by lia. reflexivity.
Qed.

(** An integer of magnitude up to [2 ^ 53] is its own Number value. *)
Lemma double_exact (z : Z) : Z.abs z <= 2 ^ 53 -> JS.double z = Some z.
Proof.
  change (2 ^ 53) with 9007199254740992. intros Hz.
  assert (Hcase : Z.abs z < 9007199254740992 \/ z = 9007199254740992
                  \/ z = -9007199254740992) by lia.
  destruct Hcase as [Hlt|[-> | ->]]; [|vm_compute; reflexivity..].
  assert (Hbits : Z.log2 (Z.abs z) + 1 <= 53).
  { destruct (Z.eq_dec (Z.abs z) 0) as [->|Hnz]; [cbn; lia|].
    assert (Z.log2 (Z.abs z) < 53); [|lia].
    apply Z.log2_lt_pow2; [lia|]. change (2 ^ 53) with 9007199254740992. exact Hlt. }
  unfold JS.double, JS.round_even.
  destruct (Z.leb_spec (Z.log2 (Z.abs z) + 1) 53) as [_|Hgt]; [|lia].
  assert (Hbig : 9007199254740992 < 2 ^ 1024) by (vm_compute; reflexivity).
  destruct (Z.ltb_spec (Z.abs z) (2 ^ 1024)) as [_|Hge]; [|lia].
  f_equal. lia.
Qed.

End ParseDecimal.

(** ** Statement text *)

Example list_statement_text :
  Sql.text (fst (list_statement "acme" (Some "ali") "50" "0"))
  = "SELECT id, email, full_name, phone, address, created_at, updated_at FROM customers WHERE tenant_id = $1 AND (email ILIKE $2 OR full_name ILIKE $2) ORDER BY created_at DESC LIMIT $3 OFFSET $4"
  /\ snd (list_statement "acme" (Some "ali") "50" "0")
     = [VText "acme"; VText "%ali%"; VNum (Some 50); VNum (Some 0)].
Proof. split; reflexivity. Qed.

Example count_statement_text :
  Sql.text (fst (count_statement "acme" None))
  = "SELECT COUNT(" +:+ String "*" ") FROM customers WHERE tenant_id = $1"
  /\ snd (count_statement "acme" None) = [VText "acme"].
Proof. split; reflexivity. Qed.

Example update_statement_text :
  let u := {| UpdateBody.tenant_id := Some "acme"; UpdateBody.full_name := None;
              UpdateBody.phone := Some (Some "555"); UpdateBody.address := None;
              UpdateBody.loyalty_points := Some (Some 3) |} in
  Sql.text (fst (update_statement "7" "acme" (set_list u)))
  = "UPDATE customers SET phone = $1, loyalty_points = $2, updated_at = CURRENT_TIMESTAMP WHERE id = $3 AND tenant_id = $4 RETURNING id, email, full_name, phone, address, loyalty_points, updated_at"
  /\ snd (update_statement "7" "acme" (set_list u))
     = [VText "555"; VInt 3; VText "7"; VText "acme"].
Proof. split; reflexivity. Qed.

Example ilike_folds_case :
  Pg.ilike "Alice@Example.com" (search_pattern (Some "ALICE")) = true
  /\ Pg.ilike "bob@example.com" (search_pattern (Some "alice")) = false.
Proof. split; reflexivity. Qed.

Example order_keeps_ties :
  map id (Pg.order_desc
            [{| id := "1"; tenant_id := "t"; email := "a"; password_hash := "";
                full_name := None; phone := None; address := None;
                loyalty_points := None; created_at := 5; updated_at := 5 |};
             {| id := "2"; tenant_id := "t"; email := "b"; password_hash := "";
                full_name := None; phone := None; address := None;
                loyalty_points := None; created_at := 9; updated_at := 9 |};
             {| id := "3"; tenant_id := "t"; email := "c"; password_hash := "";
                full_name := None; phone := None; address := None;
                loyalty_points := None; created_at := 5; updated_at := 5 |}])
  = ["2"; "1"; "3"].
Proof. reflexivity. Qed.

(** ** Pagination bounds (C3) *)

Example list_rejects_negative_limit :
  snd (list_customers 5
         {| ListQuery.tenant_id := Some "acme"; ListQuery.search := None;
            ListQuery.limit := Some "-5"; ListQuery.offset := None |}
         empty_world)
  = failed 500 "Failed to fetch customers".
Proof. reflexivity. Qed.

Example list_rejects_huge_limit :
  JS.parseInt "1000000000000000000000" = Some (10 ^ 21)
  /\ snd (list_customers 5
            {| ListQuery.tenant_id := Some "acme"; ListQuery.search := None;
               ListQuery.limit := Some "1000000000000000000000";
               ListQuery.offset := None |}
            empty_world)
     = failed 500 "Failed to fetch customers".
Proof. split; vm_compute; reflexivity. Qed.

(** C3, as stated, fails: a supplied limit of [-5] is bound to [LIMIT]
    as [-5], not clamped to a non-negative integer. *)
Lemma negative_limit_not_clamped :
  page_bounds "acme"
    {| ListQuery.tenant_id := Some "acme"; ListQuery.search := None;
       ListQuery.limit := Some "-5"; ListQuery.offset := None |}
  = (VNum (Some (-5)), VNum (Some 0))
  /\ ~ clamped (fst (page_bounds "acme"
         {| ListQuery.tenant_id := Some "acme"; ListQuery.search := None;
            ListQuery.limit := Some "-5"; ListQuery.offset := None |})).
Proof.
  split; [reflexivity|].
  intros (n & Heq & Hn). cbv in Heq. injection Heq as <-. lia.
Qed.

Lemma page_bounds_parsed (tenant : string) (q : ListQuery.t) :
  page_bounds tenant q
  = (VNum (JS.parseInt (page_limit q)), VNum (JS.parseInt (page_offset q))).
Proof.
  unfold page_bounds, list_statement.
  destruct (JS.truthy (ListQuery.search q)); reflexivity.
Qed.

(** C3 (amended): omitted bounds default to [limit = 50] and [offset = 0];
    a supplied bound is parsed by [parseInt] and bound to [LIMIT]/[OFFSET]
    as it is, so an integer of magnitude up to [2 ^ 53] written in
    decimal, negative or not, is applied unchanged. *)
Theorem page_bounds_default_or_parsed (tenant : string) (search : option string) :
  (forall t offset,
      fst (page_bounds tenant
             {| ListQuery.tenant_id := t; ListQuery.search := search;
                ListQuery.limit := None; ListQuery.offset := offset |})
      = VNum (Some 50))
  /\ (forall t limit,
      snd (page_bounds tenant
             {| ListQuery.tenant_id := t; ListQuery.search := search;
                ListQuery.limit := limit; ListQuery.offset := None |})
      = VNum (Some 0))
  /\ (forall t (l o : Z),
      Z.abs l <= 2 ^ 53 -> Z.abs o <= 2 ^ 53 ->
      page_bounds tenant
        {| ListQuery.tenant_id := t; ListQuery.search := search;
           ListQuery.limit := Some (pretty l); ListQuery.offset := Some (pretty o) |}
      = (VNum (Some l), VNum (Some o))).
Proof.
  repeat split; intros; rewrite page_bounds_parsed; unfold page_limit, page_offset;
    cbn [ListQuery.limit ListQuery.offset JS.with_default fst snd].
  - reflexivity.
  - reflexivity.
  - rewrite !parseInt_pretty_Z, !double_exact by assumption. reflexivity.
Qed.

Lemma page_bounds_default_or_parsed_witness :
  page_bounds "acme"
    {| ListQuery.tenant_id := Some "acme"; ListQuery.search := None;
       ListQuery.limit := Some (pretty (-5)); ListQuery.offset := Some (pretty 3) |}
  = (VNum (Some (-5)), VNum (Some 3)).
Proof.
  destruct (page_bounds_default_or_parsed "acme" None) as (_ & _ & H).
  apply H; vm_compute; discriminate.
Defined.

(** ** Unfolding a handler *)

Lemma truthy_inv (s : option string) :
  JS.truthy s = true -> exists c r, s = Some (String c r).
Proof.
  destruct s as [[|c r]|]; try discriminate. intros _. eauto.
Qed.

Lemma filter_nonempty {A} (P : A -> Prop) `{forall x, Decision (P x)}
    (l : list A) (x : A) :
  x ∈ l -> P x -> filter P l <> [].
Proof.
  intros Hin HP Hnil.
  assert (Hx : x ∈ filter P l) by (apply list_elem_of_filter; auto).
  rewrite Hnil in Hx. inversion Hx.
Qed.

(** ** Update without fields (C9) *)

(** C9: an update request that supplies none of [full_name], [phone],
    [address], [loyalty_points] is answered with status 400 (a validation
    error); no statement is built or run, and the world, the stored
    customers with their [updated_at] included, is left as it was. *)
Theorem update_without_fields_rejected (now : Z) (i : string)
    (tenant : option string) (w : World) :
  let u := {| UpdateBody.tenant_id := tenant; UpdateBody.full_name := None;
              UpdateBody.phone := None; UpdateBody.address := None;
              UpdateBody.loyalty_points := None |} in
  updates (set_list u) = []
  /\ update_customer now i u w
     = (w, failed 400 (if JS.truthy tenant then "No fields to update"
                       else "tenant_id is required")).
Proof.
  split; [reflexivity|].
  destruct tenant as [[|c r]|]; reflexivity.
Qed.

(** ** Duplicate create (C7) *)

Lemma select_existing_found (tenant mail : string) (rows : list Customer) (c : Customer) :
  c ∈ rows -> tenant_id c = tenant -> email c = mail ->
  Pg.select_existing tenant mail rows <> [].
Proof.
  intros Hin Ht He. unfold Pg.select_existing.
  assert (Hne : filter (fun c => Pg.has_email tenant mail c = true) rows <> []).
  { apply (filter_nonempty _ rows c Hin). unfold Pg.has_email.
    rewrite Ht, He, !String.eqb_refl. reflexivity. }
  destruct (filter _ rows); [congruence | discriminate].
Qed.

Section Create.

Variable bcrypt_hash : string -> string.
Variable points_default : option Z.

(** C7: when a customer with the same [(tenant_id, email)] is stored, a
    create request carrying its required fields is answered with status
    409 and nothing changes: no row is inserted and the stored customers
    (and the cache) are as before. *)
Theorem create_duplicate_conflict (now : Z) (b : CreateBody.t) (w : World)
    (c : Customer) :
  c ∈ Pg.rows (db w) ->
  CreateBody.tenant_id b = Some (tenant_id c) ->
  CreateBody.email b = Some (email c) ->
  JS.truthy (CreateBody.tenant_id b) = true ->
  JS.truthy (CreateBody.email b) = true ->
  JS.truthy (CreateBody.password b) = true ->
  create_customer bcrypt_hash points_default now b w
  = (w, failed 409 "Customer already exists").
Proof.
  intros Hin Ht He Tt Te Tp.
  apply truthy_inv in Tt as (c1 & r1 & Ht').
  apply truthy_inv in Te as (c2 & r2 & He').
  apply truthy_inv in Tp as (c3 & r3 & Hp').
  unfold create_customer. rewrite Ht', He', Hp'.
  assert (Hex : Pg.select_existing (String c1 r1) (String c2 r2) (Pg.rows (db w)) <> []).
  { apply (select_existing_found _ _ _ c Hin); congruence. }
  run_handler.
  destruct (Pg.select_existing _ _ _); [congruence | reflexivity].
Qed.

End Create.

Lemma create_duplicate_conflict_witness :
  let w := fst (create_customer (fun s => s) (Some 0) 10
                  {| CreateBody.tenant_id := Some "acme"; CreateBody.email := Some "a@x.io";
                     CreateBody.password := Some "pw"; CreateBody.full_name := Some "Alice";
                     CreateBody.phone := None; CreateBody.address := None |}
                  empty_world) in
  create_customer (fun s => s) (Some 0) 11
    {| CreateBody.tenant_id := Some "acme"; CreateBody.email := Some "a@x.io";
       CreateBody.password := Some "other"; CreateBody.full_name := Some "Mallory";
       CreateBody.phone := None; CreateBody.address := None |} w
  = (w, failed 409 "Customer already exists").
Proof.
  intros w.
  apply (create_duplicate_conflict (fun s => s) (Some 0) 11 _ w
           {| id := "1"; tenant_id := "acme"; email := "a@x.io"; password_hash := "pw";
              full_name := Some "Alice"; phone := None; address := None;
              loyalty_points := Some 0; created_at := 10; updated_at := 10 |}).
  - vm_compute. left.
  - reflexivity.
  - reflexivity.
  - reflexivity.
  - reflexivity.
  - reflexivity.
Defined.

(** ** Stats of a tenant without customers (C10) *)

Lemma tenant_filter_customers_of (tenant : string) (rows : list Customer) :
  filter (fun c => String.eqb (tenant_id c) tenant = true) rows
  = customers_of tenant rows.
Proof.
  apply list_filter_iff. intros c. apply String.eqb_eq.
Qed.

Lemma select_stats_empty (tenant : string) (rows : list Customer) :
  customers_of tenant rows = [] -> Pg.select_stats tenant rows = zero_stats.
Proof.
  intros H. unfold Pg.select_stats. rewrite tenant_filter_customers_of, H.
  reflexivity.
Qed.

Lemma lookup_store_same (key : string) (ttl : Z) (v : Body) (now later : Z)
    (r : Redis.t) :
  later < now + ttl ->
  Redis.lookup key later (Redis.store key ttl v now r) = Some v.
Proof.
  intros Hlt. unfold Redis.lookup, Redis.store. cbn [Redis.entries].
  rewrite lookup_insert_eq. cbn. unfold Redis.live. cbn [fst snd].
  destruct (Z.ltb_spec later (now + ttl)); [reflexivity | lia].
Qed.

(** The stats route has no not-found answer: it replies 200, or 500 when
    the cache raises. *)
Lemma customer_stats_status (now : Z) (tenant : string) (w : World) :
  status (snd (customer_stats now tenant w)) = 200
  \/ status (snd (customer_stats now tenant w)) = 500.
Proof.
  unfold customer_stats. run_handler.
  destruct (Redis.get_raises (redis w)); [right; reflexivity|].
  destruct (Redis.lookup _ _ _); [left; reflexivity|]. cbn.
  destruct (Redis.setex_raises (redis w)); [right | left]; reflexivity.
Qed.

(** C10, as stated, fails: for a tenant without customers the stats
    request answers 500 when the cache's [get] raises, and answers with
    whatever the cache holds under the tenant's stats key, here the page
    that a list request of tenant [stats] left under the key
    [customers:stats:all:50:0], which is also the stats key of the tenant
    [all:50:0]. *)
Lemma empty_tenant_stats_not_zero :
  let eve := {| CreateBody.tenant_id := Some "stats"; CreateBody.email := Some "e@x.io";
                CreateBody.password := Some "pw"; CreateBody.full_name := Some "Eve";
                CreateBody.phone := None; CreateBody.address := None |} in
  let q := {| ListQuery.tenant_id := Some "stats"; ListQuery.search := None;
              ListQuery.limit := None; ListQuery.offset := None |} in
  let down := with_faults true false false empty_world in
  let w := run (fun s => s) (Some 0)
             [(10, CreateCustomer eve); (12, ListCustomers q)] empty_world in
  customers_of "nobody" (Pg.rows (db down)) = []
  /\ snd (customer_stats 7 "nobody" down)
     = failed 500 "Failed to fetch customer stats"
  /\ customers_of "all:50:0" (Pg.rows (db w)) = []
  /\ snd (customer_stats 13 "all:50:0" w)
     = json (Page [[("id", VText "1"); ("email", VText "e@x.io");
                    ("full_name", VText "Eve"); ("phone", VNull);
                    ("address", VNull); ("created_at", VTime 10);
                    ("updated_at", VTime 10)]]
               (Some 1) (Some 50) (Some 0))
  /\ snd (customer_stats 7 "nobody" down) <> json (Row zero_stats)
  /\ snd (customer_stats 13 "all:50:0" w) <> json (Row zero_stats).
Proof.
  intros eve q down w.
  split; [reflexivity|].
  split; [vm_compute; reflexivity|].
  split; [vm_compute; reflexivity|].
  split; [vm_compute; reflexivity|].
  split; vm_compute; discriminate.
Qed.

(** C10 (amended): for a tenant without customers the stats request never
    answers not-found: its status is 200, or 500 when the cache raises.
    When the cache is in working order and holds no live entry under the
    tenant's stats key, the request is answered 200 from the store: the
    count is the text [0] (the driver hands a count over as text and the
    handler sends it on), the sum and the average are NULL, and that row
    is cached under the tenant's stats key for 120 seconds, during which
    the same request is answered with it from the cache. *)
Theorem stats_of_empty_tenant (now : Z) (tenant : string) (w : World) :
  customers_of tenant (Pg.rows (db w)) = [] ->
  (status (snd (customer_stats now tenant w)) = 200
   \/ status (snd (customer_stats now tenant w)) = 500)
  /\ (Redis.get_raises (redis w) = false ->
      Redis.setex_raises (redis w) = false ->
      Redis.lookup (stats_key tenant) now (redis w) = None ->
      let w' := {| db := db w;
                   redis := Redis.store (stats_key tenant) 120 (Row zero_stats)
                              now (redis w) |} in
      customer_stats now tenant w = (w', json (Row zero_stats))
      /\ Redis.entries (redis w') !! stats_key tenant = Some (Row zero_stats, now + 120)
      /\ forall later, later < now + 120 ->
           customer_stats later tenant w' = (w', json (Row zero_stats))).
Proof.
  intros Hnone. split; [apply customer_stats_status|].
  intros Hget Hset Hmiss w'. split; [|split].
  - unfold customer_stats. run_handler.
    rewrite Hget, Hmiss. cbn. rewrite Hset.
    rewrite select_stats_empty by assumption. reflexivity.
  - subst w'. cbn. apply lookup_insert_eq.
  - intros later Hlater. unfold customer_stats. run_handler.
    subst w'. cbn [redis Redis.get_raises Redis.store]. rewrite Hget.
    change ({| Redis.entries := <[stats_key tenant := (Row zero_stats, now + 120)]> (Redis.entries (redis w));
               Redis.get_raises := Redis.get_raises (redis w);
               Redis.setex_raises := Redis.setex_raises (redis w);
               Redis.del_raises := Redis.del_raises (redis w) |})
      with (Redis.store (stats_key tenant) 120 (Row zero_stats) now (redis w)).
    rewrite lookup_store_same by assumption. reflexivity.
Qed.

Lemma stats_of_empty_tenant_witness :
  customer_stats 7 "nobody" empty_world
  = ({| db := db empty_world;
        redis := Redis.store (stats_key "nobody") 120 (Row zero_stats) 7 (redis empty_world) |},
     json (Row zero_stats)).
Proof.
  destruct (stats_of_empty_tenant 7 "nobody" empty_world eq_refl) as [_ H].
  destruct (H eq_refl eq_refl eq_refl) as [Hrun _]. exact Hrun.
Defined.

(** ** Partial update (C8) *)

Lemma update_row_patch (now : Z) (i : string) (c1 : ascii) (r1 : string)
    (u : UpdateBody.t) (c : Customer) :
  UpdateBody.tenant_id u = Some (String c1 r1) ->
  updates (set_list u) <> [] ->
  let s := update_statement i (String c1 r1) (set_list u) in
  exists items i_at t_at,
    fst s = Sql.Update items i_at t_at
    /\ Sql.param (snd s) i_at = VText i
    /\ Sql.param (snd s) t_at = VText (String c1 r1)
    /\ Pg.update_row now items (snd s) i (String c1 r1) c
       = if Pg.is_customer i (String c1 r1) c then patch now u c else c.
Proof.
  intros Ht Hne s. subst s.
  destruct u as [t fn ph ad lp]. cbn in Ht. subst t.
  unfold Pg.update_row, patch.
  destruct fn as [fn|], ph as [ph|], ad as [ad|], lp as [lp|];
    try (exfalso; apply Hne; reflexivity);
    (eexists _, _, _; split; [reflexivity|]; split; [reflexivity|];
     split; [reflexivity|]);
    destruct (Pg.is_customer i (String c1 r1) c); try reflexivity;
    cbn; try destruct fn; try destruct ph; try destruct lp; reflexivity.
Qed.

Lemma update_customer_db (now : Z) (i : string) (c1 : ascii) (r1 : string)
    (u : UpdateBody.t) (w : World) :
  UpdateBody.tenant_id u = Some (String c1 r1) ->
  updates (set_list u) <> [] ->
  Pg.rows (db (fst (update_customer now i u w)))
  = map (fun c => if Pg.is_customer i (String c1 r1) c then patch now u c else c)
      (Pg.rows (db w)).
Proof.
  intros Ht Hne. unfold update_customer. rewrite Ht.
  destruct (updates (set_list u)) as [|it its] eqn:Hups; [congruence|].
  assert (Hne' : updates (set_list u) <> []) by congruence.
  destruct (update_row_patch now i c1 r1 u
              {| id := ""; tenant_id := ""; email := ""; password_hash := "";
                 full_name := None; phone := None; address := None;
                 loyalty_points := None; created_at := 0; updated_at := 0 |}
              Ht Hne') as (items & i_at & t_at & Hs & Hi & Htn & _).
  assert (Hrows : forall c,
             Pg.update_row now items (snd (update_statement i (String c1 r1) (set_list u)))
               i (String c1 r1) c
             = if Pg.is_customer i (String c1 r1) c then patch now u c else c).
  { intros c.
    destruct (update_row_patch now i c1 r1 u c Ht Hne')
      as (items' & i' & t' & Hs' & _ & _ & Hrow).
    rewrite Hs in Hs'. injection Hs' as <- <- <-. exact Hrow. }
  destruct (update_statement i (String c1 r1) (set_list u)) as [query params] eqn:Hst.
  cbn [fst snd] in *. subst query.
  run_handler. unfold Pg.run_update. rewrite Hi, Htn.
  assert (Hmap : map (Pg.update_row now items params i (String c1 r1)) (Pg.rows (db w))
                 = map (fun c => if Pg.is_customer i (String c1 r1) c
                                 then patch now u c else c) (Pg.rows (db w)))
    by (apply map_ext; exact Hrows).
  destruct (map (fun c => project Pg.updated_columns _) _) as [|r rs];
    [cbn; exact Hmap|].
  cbn. destruct (Redis.del_raises (redis w)) eqn:Hdel; cbn; rewrite ?Hdel; cbn;
    exact Hmap.
Qed.

(** C8: an update that supplies some of [full_name], [phone], [address],
    [loyalty_points] rewrites each customer with that id and tenant so
    that the supplied fields take their new values, the fields not
    supplied (and every other column) keep their previous values and
    [updated_at] is the time of the update; all other customers are left
    as they were. *)
Theorem partial_update_keeps_other_fields (now : Z) (i : string)
    (u : UpdateBody.t) (w : World) (tenant : string) :
  UpdateBody.tenant_id u = Some tenant ->
  JS.truthy (Some tenant) = true ->
  (0 < length (updates (set_list u)))%nat ->
  Pg.rows (db (fst (update_customer now i u w)))
  = map (fun c => if Pg.is_customer i tenant c then patch now u c else c)
      (Pg.rows (db w)).
Proof.
  intros Ht Hne Hups. destruct tenant as [|c1 r1]; [discriminate|].
  apply update_customer_db; [assumption|].
  intros Hnil. rewrite Hnil in Hups. cbn in Hups. lia.
Qed.

(** Updating only [phone]. *)
Lemma partial_update_keeps_other_fields_witness :
  let w := fst (create_customer (fun s => s) (Some 0) 10
                  {| CreateBody.tenant_id := Some "acme"; CreateBody.email := Some "a@x.io";
                     CreateBody.password := Some "pw"; CreateBody.full_name := Some "Alice";
                     CreateBody.phone := None; CreateBody.address := Some "{}" |}
                  empty_world) in
  let u := {| UpdateBody.tenant_id := Some "acme"; UpdateBody.full_name := None;
              UpdateBody.phone := Some (Some "555"); UpdateBody.address := None;
              UpdateBody.loyalty_points := None |} in
  Pg.rows (db (fst (update_customer 20 "1" u w)))
  = [{| id := "1"; tenant_id := "acme"; email := "a@x.io"; password_hash := "pw";
        full_name := Some "Alice"; phone := Some "555"; address := Some "{}";
        loyalty_points := Some 0; created_at := 10; updated_at := 20 |}].
Proof.
  intros w u.
  rewrite (partial_update_keeps_other_fields 20 "1" u w "acme");
    [reflexivity | reflexivity | reflexivity | cbn; lia].
Defined.

(** ** List and count in lockstep (C5) *)

Lemma run_page_list_statement (tenant search limit offset : _) (st : Pg.Store) :
  Pg.run_page (fst (list_statement tenant search limit offset))
    (snd (list_statement tenant search limit offset)) st
  = Pg.select_page tenant (filter_pattern search)
      (JS.parseInt limit) (JS.parseInt offset) (Pg.rows st).
Proof.
  unfold list_statement, filter_pattern.
  destruct (JS.truthy search); reflexivity.
Qed.

Lemma run_count_count_statement (tenant : string) (search : option string)
    (st : Pg.Store) :
  Pg.run_count (fst (count_statement tenant search))
    (snd (count_statement tenant search)) st
  = Some (Pg.select_count tenant (filter_pattern search) (Pg.rows st)).
Proof.
  unfold count_statement, filter_pattern.
  destruct (JS.truthy search); reflexivity.
Qed.









Lemma row_count_safe (n : Z) :
  0 <= n <= 2 ^ 53 -> Pg.row_count (Some n) = Some (Z.to_nat n).
Proof.
  change (2 ^ 53) with 9007199254740992. intros Hn. unfold Pg.row_count, Pg.bigint_max.
  destruct (Z.leb_spec 0 n); [|lia].
  destruct (Z.leb_spec n 9223372036854775807); [reflexivity | lia].
Qed.

(** A list request that misses the cache, with bounds that are integers
    from 0 to [2 ^ 53], is answered from the store and its page is cached
    for 60 seconds. *)
Lemma list_customers_miss (now : Z) (q : ListQuery.t) (w : World)
    (tenant : string) (l o : Z) :
  ListQuery.tenant_id q = Some tenant ->
  JS.truthy (Some tenant) = true ->
  JS.parseInt (page_limit q) = Some l -> 0 <= l <= 2 ^ 53 ->
  JS.parseInt (page_offset q) = Some o -> 0 <= o <= 2 ^ 53 ->
  Redis.get_raises (redis w) = false ->
  Redis.setex_raises (redis w) = false ->
  Redis.lookup (list_key tenant (ListQuery.search q) (page_limit q) (page_offset q))
    now (redis w) = None ->
  list_customers now q w
  = ({| db := db w;
        redis := Redis.store
                   (list_key tenant (ListQuery.search q) (page_limit q) (page_offset q))
                   60 (page_of tenant (ListQuery.search q) l o (Pg.rows (db w)))
                   now (redis w) |},
     json (page_of tenant (ListQuery.search q) l o (Pg.rows (db w)))).
Proof.
  intros Ht Htruthy Hl Hl0 Ho Ho0 Hget Hset Hmiss.
  destruct tenant as [|c1 r1]; [discriminate|].
  unfold list_customers. rewrite Ht. run_handler.
  rewrite Hget, Hmiss.
  pose proof (run_page_list_statement (String c1 r1) (ListQuery.search q)
                (page_limit q) (page_offset q) (db w)) as Hpage.
  pose proof (run_count_count_statement (String c1 r1) (ListQuery.search q) (db w))
    as Hcount.
  destruct (list_statement _ _ _ _) as [query params].
  destruct (count_statement _ _) as [countQuery countParams].
  cbn [fst snd] in Hpage, Hcount. rewrite Hpage.
  unfold Pg.select_page. rewrite Hl, Ho, !row_count_safe by assumption.
  rewrite Hcount, Hset. unfold Pg.select_count.
  rewrite parseInt_pretty_N, nat_N_Z. reflexivity.
Qed.

Lemma matching_no_search (tenant : string) (search : option string)
    (rows : list Customer) :
  JS.truthy search = false -> matching tenant search rows = customers_of tenant rows.
Proof.
  intros Hs. unfold matching, customers_of, filter_pattern. rewrite Hs.
  apply list_filter_iff. intros c. unfold Pg.list_filter.
  rewrite andb_true_r. apply String.eqb_eq.
Qed.





(** ** Reads when the cache raises (C2) *)

(** C2, as stated, fails: with the cache's [get] raising, each of the
    three reads answers status 500 although the store alone would answer
    200 with the stored data. *)
Lemma cache_outage_fails_reads :
  let w := with_faults true false false
             (fst (create_customer (fun s => s) (Some 0) 10
                     {| CreateBody.tenant_id := Some "acme"; CreateBody.email := Some "a@x.io";
                        CreateBody.password := Some "pw"; CreateBody.full_name := Some "Alice";
                        CreateBody.phone := None; CreateBody.address := None |}
                     empty_world)) in
  ~ store_derived (get_customer 20 "1" (Some "acme")) w
  /\ ~ store_derived
         (list_customers 20
            {| ListQuery.tenant_id := Some "acme"; ListQuery.search := None;
               ListQuery.limit := None; ListQuery.offset := None |}) w
  /\ ~ store_derived (customer_stats 20 "acme") w
  /\ status (snd (get_customer 20 "1" (Some "acme") w)) = 500
  /\ status (snd (get_customer 20 "1" (Some "acme") (cold w))) = 200.
Proof.
  intros w. unfold store_derived.
  split; [vm_compute; discriminate|].
  split; [vm_compute; discriminate|].
  split; [vm_compute; discriminate|].
  split; vm_compute; reflexivity.
Qed.

(** C2 (amended): a cache failure is reported to the caller.  When the
    cache's [get] raises, every read that passed validation is answered
    with status 500 and the route's generic message, without consulting
    the store; when [get] misses and [setex] raises, the list and stats
    requests, and the get-one request when the customer exists, are
    answered with status 500 as well.  The world is left unchanged. *)
Theorem cache_failure_fails_read (now : Z) (w : World) :
  (Redis.get_raises (redis w) = true ->
     (forall q, JS.truthy (ListQuery.tenant_id q) = true ->
        list_customers now q w = (w, failed 500 "Failed to fetch customers"))
     /\ (forall i tenant, JS.truthy tenant = true ->
        get_customer now i tenant w = (w, failed 500 "Failed to fetch customer"))
     /\ (forall tenant,
        customer_stats now tenant w = (w, failed 500 "Failed to fetch customer stats")))
  /\ (Redis.get_raises (redis w) = false ->
      Redis.setex_raises (redis w) = true ->
     (forall q tenant,
        ListQuery.tenant_id q = Some tenant -> JS.truthy (Some tenant) = true ->
        Redis.lookup (list_key tenant (ListQuery.search q) (page_limit q) (page_offset q))
          now (redis w) = None ->
        list_customers now q w = (w, failed 500 "Failed to fetch customers"))
     /\ (forall i tenant,
        JS.truthy (Some tenant) = true ->
        Redis.lookup (customer_key i tenant) now (redis w) = None ->
        Pg.select_one i tenant (Pg.rows (db w)) <> [] ->
        get_customer now i (Some tenant) w = (w, failed 500 "Failed to fetch customer"))
     /\ (forall tenant,
        Redis.lookup (stats_key tenant) now (redis w) = None ->
        customer_stats now tenant w = (w, failed 500 "Failed to fetch customer stats"))).
Proof.
  split.
  - intros Hget. split; [|split].
    + intros q Hq. apply truthy_inv in Hq as (c & r & Hq).
      unfold list_customers. rewrite Hq. run_handler. rewrite Hget. reflexivity.
    + intros i tenant Ht. apply truthy_inv in Ht as (c & r & ->).
      unfold get_customer. run_handler. rewrite Hget. reflexivity.
    + intros tenant. unfold customer_stats. run_handler. rewrite Hget. reflexivity.
  - intros Hget Hset. split; [|split].
    + intros q tenant Hq Ht Hmiss. destruct tenant as [|c r]; [discriminate|].
      unfold list_customers. rewrite Hq. run_handler. rewrite Hget, Hmiss.
      destruct (list_statement _ _ _ _) as [query params].
      destruct (Pg.run_page query params (db w)); [|reflexivity].
      destruct (count_statement _ _) as [countQuery countParams].
      destruct (Pg.run_count countQuery countParams (db w)); [|reflexivity].
      rewrite Hset. reflexivity.
    + intros i tenant Ht Hmiss Hfound. destruct tenant as [|c r]; [discriminate|].
      unfold get_customer. run_handler. rewrite Hget, Hmiss. cbn.
      destruct (Pg.select_one _ _ _); [congruence|].
      rewrite Hset. reflexivity.
    + intros tenant Hmiss. unfold customer_stats. run_handler.
      rewrite Hget, Hmiss. cbn. rewrite Hset. reflexivity.
Qed.

Lemma cache_failure_fails_read_witness :
  let w := fst (create_customer (fun s => s) (Some 0) 10
                  {| CreateBody.tenant_id := Some "acme"; CreateBody.email := Some "a@x.io";
                     CreateBody.password := Some "pw"; CreateBody.full_name := Some "Alice";
                     CreateBody.phone := None; CreateBody.address := None |}
                  empty_world) in
  get_customer 20 "1" (Some "acme") (with_faults true false false w)
  = (with_faults true false false w, failed 500 "Failed to fetch customer")
  /\ customer_stats 20 "acme" (with_faults false true false w)
     = (with_faults false true false w, failed 500 "Failed to fetch customer stats").
Proof.
  intros w. split.
  - destruct (proj1 (cache_failure_fails_read 20 (with_faults true false false w))
                eq_refl) as (_ & Hone & _).
    exact (Hone "1" (Some "acme") eq_refl).
  - destruct (proj2 (cache_failure_fails_read 20 (with_faults false true false w))
                eq_refl eq_refl) as (_ & _ & Hstats).
    apply Hstats. vm_compute. reflexivity.
Defined.

(** ** Loyalty points (C4) *)

(** C4, as stated, fails: an update that supplies [loyalty_points = -5] is
    answered with status 200 and the stored customer then has [-5]
    points. *)
Lemma update_stores_negative_points :
  let w := fst (create_customer (fun s => s) (Some 0) 10
                  {| CreateBody.tenant_id := Some "acme"; CreateBody.email := Some "a@x.io";
                     CreateBody.password := Some "pw"; CreateBody.full_name := Some "Alice";
                     CreateBody.phone := None; CreateBody.address := None |}
                  empty_world) in
  let u := {| UpdateBody.tenant_id := Some "acme"; UpdateBody.full_name := None;
              UpdateBody.phone := None; UpdateBody.address := None;
              UpdateBody.loyalty_points := Some (Some (-5)) |} in
  status (snd (update_customer 20 "1" u w)) = 200
  /\ map loyalty_points (Pg.rows (db (fst (update_customer 20 "1" u w)))) = [Some (-5)]
  /\ ~ Forall points_ok (Pg.rows (db (fst (update_customer 20 "1" u w)))).
Proof.
  intros w u.
  split; [vm_compute; reflexivity|].
  split; [vm_compute; reflexivity|].
  intros H.
  assert (Hrows : Pg.rows (db (fst (update_customer 20 "1" u w)))
                  = [{| id := "1"; tenant_id := "acme"; email := "a@x.io";
                        password_hash := "pw"; full_name := Some "Alice";
                        phone := None; address := None;
                        loyalty_points := Some (-5);
                        created_at := 10; updated_at := 20 |}])
    by (vm_compute; reflexivity).
  rewrite Hrows in H. apply Forall_cons in H as [H _].
  unfold points_ok in H. cbn in H. lia.
Qed.

Lemma list_customers_db (now : Z) (q : ListQuery.t) (w : World) :
  db (fst (list_customers now q w)) = db w.
Proof.
  unfold list_customers. run_handler.
  repeat (case_match; simplify_eq; try reflexivity).
Qed.

Lemma get_customer_db (now : Z) (i : string) (tenant : option string) (w : World) :
  db (fst (get_customer now i tenant w)) = db w.
Proof.
  unfold get_customer. run_handler.
  repeat (case_match; simplify_eq; try reflexivity).
Qed.

Lemma customer_stats_db (now : Z) (tenant : string) (w : World) :
  db (fst (customer_stats now tenant w)) = db w.
Proof.
  unfold customer_stats. run_handler.
  repeat (case_match; simplify_eq; try reflexivity).
Qed.

Lemma create_customer_rows (bcrypt_hash : string -> string)
    (points_default : option Z) (now : Z) (b : CreateBody.t) (w : World) :
  Pg.rows (db (fst (create_customer bcrypt_hash points_default now b w)))
  = Pg.rows (db w)
  \/ exists c, loyalty_points c = points_default
       /\ Pg.rows (db (fst (create_customer bcrypt_hash points_default now b w)))
          = Pg.rows (db w) ++ [c].
Proof.
  unfold create_customer. run_handler. unfold Pg.insert.
  repeat (case_match; simplify_eq; try (left; reflexivity));
    right; eexists; (split; [|reflexivity]); reflexivity.
Qed.

Lemma update_customer_rows (now : Z) (i : string) (u : UpdateBody.t) (w : World) :
  Pg.rows (db (fst (update_customer now i u w))) = Pg.rows (db w)
  \/ exists tenant,
       Pg.rows (db (fst (update_customer now i u w)))
       = map (fun c => if Pg.is_customer i tenant c then patch now u c else c)
           (Pg.rows (db w)).
Proof.
  destruct (UpdateBody.tenant_id u) as [[|c r]|] eqn:Ht.
  - left. unfold update_customer. rewrite Ht. reflexivity.
  - destruct (updates (set_list u)) as [|it its] eqn:Hups.
    + left. unfold update_customer. rewrite Ht, Hups. reflexivity.
    + right. exists (String c r). apply update_customer_db; [assumption|].
      rewrite Hups. discriminate.
  - left. unfold update_customer. rewrite Ht. reflexivity.
Qed.

Lemma patch_points_ok (now : Z) (u : UpdateBody.t) (c : Customer) :
  match UpdateBody.loyalty_points u with
  | Some (Some n) => 0 <= n
  | _ => True
  end ->
  points_ok c -> points_ok (patch now u c).
Proof.
  unfold points_ok, patch. cbn.
  destruct (UpdateBody.loyalty_points u) as [[n|]|]; cbn; auto.
Qed.

Section Points.

Variable bcrypt_hash : string -> string.
Variable points_default : option Z.
Hypothesis default_ok : match points_default with Some n => 0 <= n | None => True end.

Lemma serve_points_ok (now : Z) (r : request) (w : World) :
  asks_points_ok r ->
  Forall points_ok (Pg.rows (db w)) ->
  Forall points_ok (Pg.rows (db (fst (serve bcrypt_hash points_default now r w)))).
Proof.
  intros Hr Hw. destruct r as [q|i tenant|b|i u|tenant]; cbn [serve].
  - rewrite list_customers_db. exact Hw.
  - rewrite get_customer_db. exact Hw.
  - destruct (create_customer_rows bcrypt_hash points_default now b w)
      as [->|(c & Hc & ->)]; [exact Hw|].
    apply Forall_app. split; [exact Hw|].
    apply Forall_singleton. unfold points_ok. rewrite Hc. exact default_ok.
  - destruct (update_customer_rows now i u w) as [->|(tenant & ->)]; [exact Hw|].
    apply Forall_map. eapply Forall_impl; [exact Hw|].
    intros c Hc. cbn. destruct (Pg.is_customer i tenant c); [|exact Hc].
    apply patch_points_ok; assumption.
  - rewrite customer_stats_db. exact Hw.
Qed.

(** C4 (amended): the service does not check the sign of
    [loyalty_points]; an update stores the supplied value as it is.  So
    the points of every stored customer stay non-negative through any
    run of requests in which no update supplies a negative value,
    provided the column default is not negative. *)
Theorem points_stay_nonnegative (l : list (Z * request)) :
  forall w : World,
    Forall (fun tr => asks_points_ok (snd tr)) l ->
    Forall points_ok (Pg.rows (db w)) ->
    Forall points_ok (Pg.rows (db (run bcrypt_hash points_default l w))).
Proof.
  induction l as [|[now r] l IH]; intros w Hl Hw; [exact Hw|].
  apply Forall_cons in Hl as [Hr Hl]. cbn [run].
  apply IH; [exact Hl|]. apply serve_points_ok; assumption.
Qed.

End Points.

(** No update asks for negative points in this run. *)
Lemma points_stay_nonnegative_witness :
  Forall points_ok
    (Pg.rows (db (run (fun s => s) (Some 0)
       [(10, CreateCustomer
               {| CreateBody.tenant_id := Some "acme"; CreateBody.email := Some "a@x.io";
                  CreateBody.password := Some "pw"; CreateBody.full_name := Some "Alice";
                  CreateBody.phone := None; CreateBody.address := None |});
        (20, UpdateCustomer "1"
               {| UpdateBody.tenant_id := Some "acme"; UpdateBody.full_name := None;
                  UpdateBody.phone := None; UpdateBody.address := None;
                  UpdateBody.loyalty_points := Some (Some 7) |})]
       empty_world))).
Proof.
  apply points_stay_nonnegative.
  - cbn. lia.
  - apply Forall_cons. split; [exact I|].
    apply Forall_cons. split; [cbn; lia|]. apply Forall_nil_2.
  - apply Forall_nil_2.
Defined.

(** ** Invalidation after a write (C1) *)

(** The key deleted after a write is never the key of a cached page of
    the same tenant: a page key goes on with two more colons where the
    deleted key ends in an asterisk. *)
Lemma list_key_not_pattern (tenant : string) (search : option string)
    (limit offset : string) :
  list_key tenant search limit offset <> list_pattern tenant.
Proof.
  unfold list_key, list_pattern. intros H.
  apply String.app_inj in H. apply String.app_inj in H.
  injection H as H.
  destruct search as [[|c r]|]; cbn in H; try discriminate.
  injection H as _ H. destruct r; discriminate.
Qed.

Lemma lookup_remove_other (key other : string) (now : Z) (r : Redis.t) :
  key <> other ->
  Redis.lookup key now (Redis.remove other r) = Redis.lookup key now r.
Proof.
  intros Hne. unfold Redis.lookup, Redis.remove. cbn [Redis.entries].
  rewrite lookup_delete_ne by congruence. reflexivity.
Qed.

(** Whatever a create request does, every cached page of its tenant is
    still served afterwards. *)
Lemma create_keeps_cached_pages (bcrypt_hash : string -> string)
    (points_default : option Z) (now later : Z) (b : CreateBody.t) (w : World)
    (tenant : string) (search : option string) (limit offset : string) :
  CreateBody.tenant_id b = Some tenant ->
  Redis.lookup (list_key tenant search limit offset) later
    (redis (fst (create_customer bcrypt_hash points_default now b w)))
  = Redis.lookup (list_key tenant search limit offset) later (redis w).
Proof.
  intros Ht. unfold create_customer. rewrite Ht. run_handler.
  repeat (case_match; simplify_eq; try reflexivity).
  cbn [fst redis]. apply lookup_remove_other, list_key_not_pattern.
Qed.

(** The same holds for an update request: neither of the two keys it
    deletes is the key of a cached page of its tenant. *)
Lemma list_key_not_customer_key (tenant : string) (search : option string)
    (limit offset i t : string) :
  list_key tenant search limit offset <> customer_key i t.
Proof.
  unfold list_key, customer_key. cbn. intros H. discriminate H.
Qed.

Lemma update_keeps_cached_pages (now later : Z) (i : string) (u : UpdateBody.t)
    (w : World) (tenant : string) (search : option string) (limit offset : string) :
  UpdateBody.tenant_id u = Some tenant ->
  Redis.lookup (list_key tenant search limit offset) later
    (redis (fst (update_customer now i u w)))
  = Redis.lookup (list_key tenant search limit offset) later (redis w).
Proof.
  intros Ht. unfold update_customer. rewrite Ht. run_handler.
  destruct tenant as [|c r]; [reflexivity|].
  destruct (updates (set_list u)); [reflexivity|].
  destruct (update_statement _ _ _) as [query params].
  destruct (Pg.run_update now query params (db w)) as [[st result]|]; [|reflexivity].
  destruct result as [|r0 rs]; [reflexivity|]. cbn.
  destruct (Redis.del_raises (redis w)) eqn:Hdel; [reflexivity|].
  cbn. rewrite Hdel. cbn.
  rewrite !lookup_remove_other
    by (apply list_key_not_pattern || apply list_key_not_customer_key).
  reflexivity.
Qed.

(** C1 (the code misses it): after a page of tenant [acme] has been cached
    at time 12, a successful create at 13 and a successful update at 15
    leave that page in the cache, and the list requests at 14 and 16 are
    answered with it: one customer named Alice and [total = 1], while the
    store holds two customers and the first is now named Alicia. *)
Theorem write_leaves_stale_page :
  let alice := {| CreateBody.tenant_id := Some "acme"; CreateBody.email := Some "a@x.io";
                  CreateBody.password := Some "pw"; CreateBody.full_name := Some "Alice";
                  CreateBody.phone := None; CreateBody.address := None |} in
  let bob := {| CreateBody.tenant_id := Some "acme"; CreateBody.email := Some "b@x.io";
                CreateBody.password := Some "pw"; CreateBody.full_name := Some "Bob";
                CreateBody.phone := None; CreateBody.address := None |} in
  let rename := {| UpdateBody.tenant_id := Some "acme";
                   UpdateBody.full_name := Some (Some "Alicia");
                   UpdateBody.phone := None; UpdateBody.address := None;
                   UpdateBody.loyalty_points := None |} in
  let q := {| ListQuery.tenant_id := Some "acme"; ListQuery.search := None;
              ListQuery.limit := None; ListQuery.offset := None |} in
  let stale :=
    json (Page [[("id", VText "1"); ("email", VText "a@x.io");
                 ("full_name", VText "Alice"); ("phone", VNull);
                 ("address", VNull); ("created_at", VTime 10);
                 ("updated_at", VTime 10)]]
            (Some 1) (Some 50) (Some 0)) in
  let w1 := run (fun s => s) (Some 0)
              [(10, CreateCustomer alice); (12, ListCustomers q)] empty_world in
  let w2 := fst (create_customer (fun s => s) (Some 0) 13 bob w1) in
  let w3 := fst (update_customer 15 "1" rename w2) in
  status (snd (create_customer (fun s => s) (Some 0) 13 bob w1)) = 201
  /\ snd (list_customers 14 q w2) = stale
  /\ status (snd (update_customer 15 "1" rename w2)) = 200
  /\ snd (list_customers 16 q w3) = stale
  /\ snd (list_customers 16 q (cold w3))
     = json (Page [[("id", VText "2"); ("email", VText "b@x.io");
                    ("full_name", VText "Bob"); ("phone", VNull);
                    ("address", VNull); ("created_at", VTime 13);
                    ("updated_at", VTime 13)];
                   [("id", VText "1"); ("email", VText "a@x.io");
                    ("full_name", VText "Alicia"); ("phone", VNull);
                    ("address", VNull); ("created_at", VTime 10);
                    ("updated_at", VTime 15)]]
               (Some 2) (Some 50) (Some 0)).
Proof.
  intros alice bob rename q stale w1 w2 w3.
  split; [vm_compute; reflexivity|].
  split; [vm_compute; reflexivity|].
  split; [vm_compute; reflexivity|].
  split; vm_compute; reflexivity.
Qed.

(** ** Tenant isolation (C6) *)

(** What the store returns for a tenant is that tenant's. *)
Lemma matching_is_scoped (tenant : string) (search : option string)
    (rows : list Customer) (c : Customer) :
  c ∈ matching tenant search rows -> tenant_id c = tenant.
Proof.
  unfold matching. intros H. apply list_elem_of_filter in H as [H _].
  unfold Pg.list_filter in H. apply andb_true_iff in H as [H _].
  apply String.eqb_eq. exact H.
Qed.

(** The three kinds of key are joined the same way, and collide across
    tenants and across routes. *)
Lemma cache_keys_collide :
  list_key "acme" None "5:0" "0" = list_key "acme:all" (Some "5") "0" "0"
  /\ customer_key "7" "eu:acme" = customer_key "7:eu" "acme"
  /\ stats_key "all:50:0" = list_key "stats" None "50" "0".
Proof. repeat split. Qed.

(** C6 (the code misses it on the cached path): the cache key of a page
    joins its parts with colons, so two requests of different tenants can
    share a key.  Tenant [acme] lists its customers with [limit = "5:0"];
    the page is cached under [customers:acme:all:5:0:0].  A list request
    scoped to tenant [acme:all] with [search = "5"], [limit = "0"] and
    [offset = "0"] has the same key and is answered with that page, which
    shows the customer created under [acme]; the store alone answers with
    no customers. *)
Theorem cached_page_crosses_tenants :
  let alice := {| CreateBody.tenant_id := Some "acme"; CreateBody.email := Some "a@x.io";
                  CreateBody.password := Some "pw"; CreateBody.full_name := Some "Alice";
                  CreateBody.phone := None; CreateBody.address := None |} in
  let bob := {| CreateBody.tenant_id := Some "acme:all"; CreateBody.email := Some "b@y.io";
                CreateBody.password := Some "pw"; CreateBody.full_name := Some "Bob";
                CreateBody.phone := None; CreateBody.address := None |} in
  let qa := {| ListQuery.tenant_id := Some "acme"; ListQuery.search := None;
               ListQuery.limit := Some "5:0"; ListQuery.offset := Some "0" |} in
  let qb := {| ListQuery.tenant_id := Some "acme:all"; ListQuery.search := Some "5";
               ListQuery.limit := Some "0"; ListQuery.offset := Some "0" |} in
  let w := run (fun s => s) (Some 0)
             [(10, CreateCustomer alice); (11, CreateCustomer bob);
              (12, ListCustomers qa)] empty_world in
  list_key "acme" None "5:0" "0" = list_key "acme:all" (Some "5") "0" "0"
  /\ map tenant_id (Pg.rows (db w)) = ["acme"; "acme:all"]
  /\ snd (list_customers 13 qb w)
     = json (Page [[("id", VText "1"); ("email", VText "a@x.io");
                    ("full_name", VText "Alice"); ("phone", VNull);
                    ("address", VNull); ("created_at", VTime 10);
                    ("updated_at", VTime 10)]]
               (Some 1) (Some 5) (Some 0))
  /\ (exists r, r ∈ customers_in (body (snd (list_customers 13 qb w)))
                /\ shows "a@x.io" r)
  /\ snd (list_customers 13 qb (cold w)) = json (Page [] (Some 0) (Some 0) (Some 0)).
Proof.
  intros alice bob qa qb w.
  split; [reflexivity|].
  split; [vm_compute; reflexivity|].
  assert (Hresp : snd (list_customers 13 qb w)
     = json (Page [[("id", VText "1"); ("email", VText "a@x.io");
                    ("full_name", VText "Alice"); ("phone", VNull);
                    ("address", VNull); ("created_at", VTime 10);
                    ("updated_at", VTime 10)]]
               (Some 1) (Some 5) (Some 0))) by (vm_compute; reflexivity).
  split; [exact Hresp|].
  split; [|vm_compute; reflexivity].
  rewrite Hresp. eexists. split; [apply list_elem_of_here|].
  unfold shows. apply list_elem_of_further, list_elem_of_here.
Qed.

(** * Further properties of the service *)

(** ** Reconnection delay *)

(** X1: the reconnection delay grows by 50 ms per attempt and is capped
    at 2000 ms: it is never above the cap, never decreases from one
    attempt to the next, is [50 * times] up to attempt 40 and the cap
    from there on; from the first attempt on it is at least 50 ms. *)
Theorem retryStrategy_capped (times : Z) :
  retryStrategy times <= 2000
  /\ retryStrategy times <= retryStrategy (times + 1)
  /\ (times <= 40 -> retryStrategy times = times * 50)
  /\ (40 <= times -> retryStrategy times = 2000)
  /\ (1 <= times -> 50 <= retryStrategy times).
Proof.
  unfold retryStrategy. repeat split; intros; lia.
Qed.

Lemma retryStrategy_capped_witness :
  retryStrategy 3 = 150 /\ retryStrategy 41 = 2000 /\ 50 <= retryStrategy 1.
Proof.
  destruct (retryStrategy_capped 3) as (_ & _ & H3 & _).
  destruct (retryStrategy_capped 41) as (_ & _ & _ & H41 & _).
  destruct (retryStrategy_capped 1) as (_ & _ & _ & _ & H1).
  split; [rewrite H3; lia|]. split; [apply H41; lia | apply H1; lia].
Defined.

(** ** Validation *)

Lemma falsy_inv (s : option string) :
  JS.truthy s = false -> s = None \/ s = Some "".
Proof.
  destruct s as [[|c r]|]; auto; discriminate.
Qed.

(** X2: a request that lacks a required field is answered with status 400
    before the cache or the store is touched: the world is returned as it
    was, whatever the state of the cache.  The list, get-one and update
    routes require [tenant_id]; the create route requires [tenant_id],
    [email] and [password]. *)
Theorem missing_fields_rejected (now : Z) (w : World) :
  (forall q, JS.truthy (ListQuery.tenant_id q) = false ->
     list_customers now q w = (w, failed 400 "tenant_id is required"))
  /\ (forall i tenant, JS.truthy tenant = false ->
     get_customer now i tenant w = (w, failed 400 "tenant_id is required"))
  /\ (forall bcrypt_hash points_default b,
     JS.truthy (CreateBody.tenant_id b) && JS.truthy (CreateBody.email b)
       && JS.truthy (CreateBody.password b) = false ->
     create_customer bcrypt_hash points_default now b w
     = (w, failed 400 "tenant_id, email, and password are required"))
  /\ (forall i u, JS.truthy (UpdateBody.tenant_id u) = false ->
     update_customer now i u w = (w, failed 400 "tenant_id is required")).
Proof.
  split; [|split; [|split]].
  - intros q H. unfold list_customers.
    destruct (falsy_inv _ H) as [-> | ->]; reflexivity.
  - intros i tenant H. unfold get_customer.
    destruct (falsy_inv _ H) as [-> | ->]; reflexivity.
  - intros h d b H. unfold create_customer.
    destruct (CreateBody.tenant_id b) as [[|c1 r1]|];
      destruct (CreateBody.email b) as [[|c2 r2]|];
      destruct (CreateBody.password b) as [[|c3 r3]|];
      try reflexivity; discriminate.
  - intros i u H. unfold update_customer.
    destruct (falsy_inv _ H) as [-> | ->]; reflexivity.
Qed.

Lemma missing_fields_rejected_witness :
  create_customer (fun s => s) (Some 0) 5
    {| CreateBody.tenant_id := Some "acme"; CreateBody.email := Some "a@x.io";
       CreateBody.password := None; CreateBody.full_name := None;
       CreateBody.phone := None; CreateBody.address := None |}
    (with_faults true true true empty_world)
  = (with_faults true true true empty_world,
     failed 400 "tenant_id, email, and password are required").
Proof.
  destruct (missing_fields_rejected 5 (with_faults true true true empty_world))
    as (_ & _ & Hcreate & _).
  apply Hcreate. reflexivity.
Defined.

(** ** Get one customer *)




Lemma select_one_none (i tenant : string) (rows : list Customer) :
  (forall c, c ∈ rows -> id c = i -> tenant_id c <> tenant) ->
  Pg.select_one i tenant rows = [].
Proof.
  intros H. unfold Pg.select_one.
  induction rows as [|c l IH]; [reflexivity|].
  rewrite filter_cons. destruct (decide (Pg.is_customer i tenant c = true)) as [Hc|Hc].
  - exfalso. unfold Pg.is_customer in Hc. apply andb_true_iff in Hc as [Hi Htn].
    apply String.eqb_eq in Hi, Htn.
    exact (H c (list_elem_of_here c l) Hi Htn).
  - apply IH. intros c' Hin. apply H. apply list_elem_of_further. exact Hin.
Qed.

(** X4: a get-one request for an id that no customer of the tenant has
    (the id may be another tenant's) is answered 404 and nothing is
    cached: the world is unchanged. *)
Theorem get_customer_not_found (now : Z) (i tenant : string) (w : World) :
  JS.truthy (Some tenant) = true ->
  Redis.get_raises (redis w) = false ->
  Redis.lookup (customer_key i tenant) now (redis w) = None ->
  (forall c, c ∈ Pg.rows (db w) -> id c = i -> tenant_id c <> tenant) ->
  get_customer now i (Some tenant) w = (w, failed 404 "Customer not found").
Proof.
  intros Ht Hget Hmiss Hnone. destruct tenant as [|c1 r1]; [discriminate|].
  unfold get_customer. run_handler. rewrite Hget, Hmiss. cbn.
  rewrite select_one_none by assumption. reflexivity.
Qed.

(** The customer exists, under another tenant. *)
Lemma get_customer_not_found_witness :
  let w := fst (create_customer (fun s => s) (Some 0) 10
                  {| CreateBody.tenant_id := Some "acme"; CreateBody.email := Some "a@x.io";
                     CreateBody.password := Some "pw"; CreateBody.full_name := Some "Alice";
                     CreateBody.phone := None; CreateBody.address := None |}
                  empty_world) in
  get_customer 20 "1" (Some "globex") w = (w, failed 404 "Customer not found").
Proof.
  intros w. apply (get_customer_not_found 20 "1" "globex" w);
    [reflexivity | reflexivity | vm_compute; reflexivity |].
  intros c Hc _. vm_compute in Hc. apply list_elem_of_singleton in Hc. subst c.
  cbn. discriminate.
Defined.

(** ** What a write does *)

Lemma store_eta (st : Pg.Store) :
  {| Pg.rows := Pg.rows st; Pg.serial := Pg.serial st |} = st.
Proof. destruct st; reflexivity. Qed.

Lemma world_eta (w : World) : {| db := db w; redis := redis w |} = w.
Proof. destruct w; reflexivity. Qed.

(** The update handler, once its request has a tenant and a field. *)
Lemma update_customer_run (now : Z) (i : string) (c1 : ascii) (r1 : string)
    (u : UpdateBody.t) (w : World) :
  UpdateBody.tenant_id u = Some (String c1 r1) ->
  updates (set_list u) <> [] ->
  let tenant := String c1 r1 in
  let st' := {| Pg.rows := map (fun c => if Pg.is_customer i tenant c
                                         then patch now u c else c)
                             (Pg.rows (db w));
                Pg.serial := Pg.serial (db w) |} in
  update_customer now i u w
  = match filter (fun c => Pg.is_customer i tenant c = true) (Pg.rows (db w)) with
    | [] => ({| db := st'; redis := redis w |}, failed 404 "Customer not found")
    | c :: _ =>
        if Redis.del_raises (redis w)
        then ({| db := st'; redis := redis w |},
              failed 500 "Failed to update customer")
        else ({| db := st';
                 redis := Redis.remove (list_pattern tenant)
                            (Redis.remove (customer_key i tenant) (redis w)) |},
              json (Row (project Pg.updated_columns (patch now u c))))
    end.
Proof.
  intros Ht Hne tenant st'. subst tenant st'.
  unfold update_customer. rewrite Ht.
  destruct (updates (set_list u)) as [|it its] eqn:Hups; [congruence|].
  assert (Hne' : updates (set_list u) <> []) by congruence.
  destruct (update_row_patch now i c1 r1 u
              {| id := ""; tenant_id := ""; email := ""; password_hash := "";
                 full_name := None; phone := None; address := None;
                 loyalty_points := None; created_at := 0; updated_at := 0 |}
              Ht Hne') as (items & i_at & t_at & Hs & Hi & Htn & _).
  assert (Hrows : forall c,
             Pg.update_row now items (snd (update_statement i (String c1 r1) (set_list u)))
               i (String c1 r1) c
             = if Pg.is_customer i (String c1 r1) c then patch now u c else c).
  { intros c.
    destruct (update_row_patch now i c1 r1 u c Ht Hne')
      as (items' & i' & t' & Hs' & _ & _ & Hrow).
    rewrite Hs in Hs'. injection Hs' as <- <- <-. exact Hrow. }
  destruct (update_statement i (String c1 r1) (set_list u)) as [query params] eqn:Hst.
  cbn [fst snd] in *. subst query.
  run_handler. unfold Pg.run_update. rewrite Hi, Htn.
  rewrite (map_ext _ _ Hrows).
  destruct (filter _ (Pg.rows (db w))) as [|c l] eqn:Hf; [reflexivity|].
  cbn [map]. rewrite Hrows.
  assert (Hc : Pg.is_customer i (String c1 r1) c = true).
  { assert (Hin : c ∈ filter (fun c => Pg.is_customer i (String c1 r1) c = true)
                      (Pg.rows (db w))) by (rewrite Hf; apply list_elem_of_here).
    apply list_elem_of_filter in Hin as [Hin _]. exact Hin. }
  rewrite Hc. cbn.
  destruct (Redis.del_raises (redis w)) eqn:Hdel; [reflexivity|].
  cbn. rewrite Hdel. reflexivity.
Qed.

Lemma is_customer_patch (now : Z) (u : UpdateBody.t) (i tenant : string) (c : Customer) :
  Pg.is_customer i tenant (patch now u c) = Pg.is_customer i tenant c.
Proof. reflexivity. Qed.

Lemma select_one_patched (now : Z) (u : UpdateBody.t) (i tenant : string)
    (rows : list Customer) :
  Pg.select_one i tenant
    (map (fun c => if Pg.is_customer i tenant c then patch now u c else c) rows)
  = map (fun c => project Pg.one_columns (patch now u c))
      (filter (fun c => Pg.is_customer i tenant c = true) rows).
Proof.
  unfold Pg.select_one. induction rows as [|c l IH]; [reflexivity|].
  cbn [map]. rewrite !filter_cons.
  destruct (Pg.is_customer i tenant c) eqn:Hc.
  - rewrite is_customer_patch, Hc.
    destruct (decide (true = true)); [|congruence]. cbn [map]. rewrite IH. reflexivity.
  - rewrite Hc. destruct (decide (false = true)); [discriminate|]. exact IH.
Qed.

Lemma customer_key_not_pattern (i tenant t : string) :
  customer_key i tenant <> list_pattern t.
Proof.
  unfold customer_key, list_pattern. cbn. intros H. discriminate H.
Qed.

Lemma lookup_remove_same (key : string) (now : Z) (r : Redis.t) :
  Redis.lookup key now (Redis.remove key r) = None.
Proof.
  unfold Redis.lookup, Redis.remove. cbn [Redis.entries].
  rewrite lookup_delete_eq. reflexivity.
Qed.

(** A get-one request that misses the cache and finds the customer. *)
Lemma get_customer_from_store (now : Z) (i tenant : string) (w : World)
    (r : row) (rs : list row) :
  JS.truthy (Some tenant) = true ->
  Redis.get_raises (redis w) = false ->
  Redis.setex_raises (redis w) = false ->
  Redis.lookup (customer_key i tenant) now (redis w) = None ->
  Pg.select_one i tenant (Pg.rows (db w)) = r :: rs ->
  snd (get_customer now i (Some tenant) w) = json (Row r).
Proof.
  intros Ht Hget Hset Hmiss Hrow.
  destruct tenant as [|c1 r1]; [discriminate|].
  unfold get_customer. run_handler. rewrite Hget, Hmiss. cbn.
  rewrite Hrow, Hset. reflexivity.
Qed.

(** X5: read your update.  When an update is answered 200, the cached
    copy of that customer is gone, so a get-one request for the same id
    and tenant, at any later time, is answered from the store with the
    updated customer: the one the update itself returned. *)
Theorem update_then_get (now later : Z) (i tenant : string)
    (u : UpdateBody.t) (w : World) :
  UpdateBody.tenant_id u = Some tenant ->
  status (snd (update_customer now i u w)) = 200 ->
  Redis.get_raises (redis w) = false ->
  Redis.setex_raises (redis w) = false ->
  exists c, c ∈ Pg.rows (db w) /\ id c = i /\ tenant_id c = tenant
    /\ snd (update_customer now i u w)
       = json (Row (project Pg.updated_columns (patch now u c)))
    /\ snd (get_customer later i (Some tenant) (fst (update_customer now i u w)))
       = json (Row (project Pg.one_columns (patch now u c))).
Proof.
  intros Ht Hok Hget Hset.
  destruct tenant as [|c1 r1].
  { unfold update_customer in Hok. rewrite Ht in Hok. discriminate Hok. }
  destruct (updates (set_list u)) as [|it its] eqn:Hups.
  { unfold update_customer in Hok. rewrite Ht, Hups in Hok. discriminate Hok. }
  assert (Hne : updates (set_list u) <> []) by (rewrite Hups; discriminate).
  pose proof (update_customer_run now i c1 r1 u w Ht Hne) as Hrun.
  cbv zeta in Hrun.
  destruct (filter _ (Pg.rows (db w))) as [|c l] eqn:Hf.
  { rewrite Hrun in Hok. discriminate Hok. }
  destruct (Redis.del_raises (redis w)) eqn:Hdel.
  { rewrite Hrun in Hok. discriminate Hok. }
  assert (Hin : c ∈ filter (fun c => Pg.is_customer i (String c1 r1) c = true)
                    (Pg.rows (db w))) by (rewrite Hf; apply list_elem_of_here).
  apply list_elem_of_filter in Hin as [Hc Hin].
  unfold Pg.is_customer in Hc. apply andb_true_iff in Hc as [Hi Htn].
  apply String.eqb_eq in Hi, Htn.
  exists c. rewrite Hrun. cbn [fst snd].
  split; [exact Hin|]. split; [exact Hi|]. split; [exact Htn|].
  split; [reflexivity|].
  erewrite get_customer_from_store; [reflexivity | reflexivity | exact Hget
    | exact Hset | | ].
  - cbn [redis]. rewrite lookup_remove_other by apply customer_key_not_pattern.
    apply lookup_remove_same.
  - cbn [db Pg.rows]. rewrite select_one_patched, Hf. reflexivity.
Qed.

Lemma update_then_get_witness :
  let w := fst (create_customer (fun s => s) (Some 0) 10
                  {| CreateBody.tenant_id := Some "acme"; CreateBody.email := Some "a@x.io";
                     CreateBody.password := Some "pw"; CreateBody.full_name := Some "Alice";
                     CreateBody.phone := None; CreateBody.address := None |}
                  empty_world) in
  let u := {| UpdateBody.tenant_id := Some "acme"; UpdateBody.full_name := None;
              UpdateBody.phone := Some (Some "555"); UpdateBody.address := None;
              UpdateBody.loyalty_points := None |} in
  exists c, c ∈ Pg.rows (db w) /\ id c = "1" /\ tenant_id c = "acme"
    /\ snd (update_customer 20 "1" u w)
       = json (Row (project Pg.updated_columns (patch 20 u c)))
    /\ snd (get_customer 25 "1" (Some "acme") (fst (update_customer 20 "1" u w)))
       = json (Row (project Pg.one_columns (patch 20 u c))).
Proof.
  intros w u.
  apply (update_then_get 20 25 "1" "acme" u w);
    [reflexivity | vm_compute; reflexivity | reflexivity | reflexivity].
Defined.

Lemma select_existing_none (tenant mail : string) (rows : list Customer) :
  (forall c, c ∈ rows -> identity c <> (tenant, mail)) ->
  Pg.select_existing tenant mail rows = [].
Proof.
  intros H. unfold Pg.select_existing.
  induction rows as [|c l IH]; [reflexivity|].
  rewrite filter_cons.
  destruct (decide (Pg.has_email tenant mail c = true)) as [Hc|Hc].
  - exfalso. unfold Pg.has_email in Hc. apply andb_true_iff in Hc as [Ht Hm].
    apply String.eqb_eq in Ht, Hm.
    apply (H c (list_elem_of_here c l)). unfold identity. congruence.
  - apply IH. intros c' Hin. apply H. apply list_elem_of_further. exact Hin.
Qed.

Lemma select_existing_nil_inv (tenant mail : string) (rows : list Customer) (c : Customer) :
  Pg.select_existing tenant mail rows = [] ->
  c ∈ rows -> identity c <> (tenant, mail).
Proof.
  intros Hnil Hin Hid. unfold identity in Hid. injection Hid as Ht Hm.
  exact (select_existing_found tenant mail rows c Hin Ht Hm Hnil).
Qed.

Section Writes.

Variable bcrypt_hash : string -> string.
Variable points_default : option Z.

(** The create handler, once its request has the required fields. *)
Lemma create_customer_run (now : Z) (b : CreateBody.t) (w : World)
    (c1 c2 c3 : ascii) (r1 r2 r3 : string) :
  CreateBody.tenant_id b = Some (String c1 r1) ->
  CreateBody.email b = Some (String c2 r2) ->
  CreateBody.password b = Some (String c3 r3) ->
  let tenant := String c1 r1 in
  let mail := String c2 r2 in
  let c := created bcrypt_hash points_default now (Pg.serial (db w)) tenant mail
             (String c3 r3) b in
  let st' := {| Pg.rows := Pg.rows (db w) ++ [c];
                Pg.serial := N.succ (Pg.serial (db w)) |} in
  create_customer bcrypt_hash points_default now b w
  = match Pg.select_existing tenant mail (Pg.rows (db w)) with
    | _ :: _ => (w, failed 409 "Customer already exists")
    | [] =>
        if Redis.del_raises (redis w)
        then ({| db := st'; redis := redis w |},
              failed 500 "Failed to create customer")
        else ({| db := st'; redis := Redis.remove (list_pattern tenant) (redis w) |},
              {| status := 201; body := Row (project Pg.created_columns c) |})
    end.
Proof.
  intros Ht He Hp tenant mail c st'. subst tenant mail c st'.
  unfold create_customer. rewrite Ht, He, Hp. run_handler.
  destruct (Pg.select_existing _ _ _); [|reflexivity].
  unfold Pg.insert. cbn.
  destruct (Redis.del_raises (redis w)); reflexivity.
Qed.

(** X6: a create request with its required fields and a new
    [(tenant_id, email)] pair, with the cache in working order, is
    answered 201 with the columns [id, email, full_name, phone, address,
    created_at] of the new customer; the store keeps its customers as
    they were and gains exactly this one at the end, holding the hash of
    the password (not the password), both timestamps at the time of the
    request and the default points. *)
Theorem create_stores_customer (now : Z) (b : CreateBody.t) (w : World)
    (tenant mail password : string) :
  CreateBody.tenant_id b = Some tenant -> JS.truthy (Some tenant) = true ->
  CreateBody.email b = Some mail -> JS.truthy (Some mail) = true ->
  CreateBody.password b = Some password -> JS.truthy (Some password) = true ->
  (forall c, c ∈ Pg.rows (db w) -> identity c <> (tenant, mail)) ->
  Redis.del_raises (redis w) = false ->
  let c := created bcrypt_hash points_default now (Pg.serial (db w)) tenant mail
             password b in
  snd (create_customer bcrypt_hash points_default now b w)
  = {| status := 201;
       body := Row [("id", VText (id c)); ("email", VText mail);
                    ("full_name", nullable VText (CreateBody.full_name b));
                    ("phone", nullable VText (CreateBody.phone b));
                    ("address", nullable VText (CreateBody.address b));
                    ("created_at", VTime now)] |}
  /\ Pg.rows (db (fst (create_customer bcrypt_hash points_default now b w)))
     = Pg.rows (db w) ++ [c]
  /\ length (customers_of tenant
               (Pg.rows (db (fst (create_customer bcrypt_hash points_default now b w)))))
     = S (length (customers_of tenant (Pg.rows (db w)))).
Proof.
  intros Ht Tt He Te Hp Tp Hnew Hdel c.
  destruct tenant as [|c1 r1]; [discriminate|].
  destruct mail as [|c2 r2]; [discriminate|].
  destruct password as [|c3 r3]; [discriminate|].
  rewrite (create_customer_run now b w c1 c2 c3 r1 r2 r3 Ht He Hp).
  rewrite select_existing_none by assumption. rewrite Hdel. cbn [fst snd db Pg.rows].
  split; [reflexivity|]. split; [reflexivity|].
  unfold customers_of. rewrite filter_app, length_app.
  rewrite filter_cons_True by reflexivity. cbn. lia.
Qed.

End Writes.

Lemma create_stores_customer_witness :
  snd (create_customer (fun s => "h:" +:+ s) (Some 0) 10
         {| CreateBody.tenant_id := Some "acme"; CreateBody.email := Some "a@x.io";
            CreateBody.password := Some "pw"; CreateBody.full_name := Some "Alice";
            CreateBody.phone := None; CreateBody.address := Some "{}" |}
         empty_world)
  = {| status := 201;
       body := Row [("id", VText "1"); ("email", VText "a@x.io");
                    ("full_name", VText "Alice"); ("phone", VNull);
                    ("address", VText "{}"); ("created_at", VTime 10)] |}.
Proof.
  destruct (create_stores_customer (fun s => "h:" +:+ s) (Some 0) 10
              {| CreateBody.tenant_id := Some "acme"; CreateBody.email := Some "a@x.io";
                 CreateBody.password := Some "pw"; CreateBody.full_name := Some "Alice";
                 CreateBody.phone := None; CreateBody.address := Some "{}" |}
              empty_world "acme" "a@x.io" "pw") as (H & _ & _);
    [reflexivity | reflexivity | reflexivity | reflexivity | reflexivity
    | reflexivity | | reflexivity | exact H].
  intros c Hc. cbn in Hc. inversion Hc.
Defined.


(** X7: a write whose invalidation fails is kept.  When [redis.del]
    raises, a create request with a new [(tenant_id, email)] pair and an
    update request that matches a customer are answered 500, yet the
    customer has been inserted, respectively updated, in the store. *)
Theorem failed_invalidation_keeps_write (bcrypt_hash : string -> string)
    (points_default : option Z) (now : Z) (w : World) :
  Redis.del_raises (redis w) = true ->
  (forall b tenant mail password,
      CreateBody.tenant_id b = Some tenant -> JS.truthy (Some tenant) = true ->
      CreateBody.email b = Some mail -> JS.truthy (Some mail) = true ->
      CreateBody.password b = Some password -> JS.truthy (Some password) = true ->
      (forall c, c ∈ Pg.rows (db w) -> identity c <> (tenant, mail)) ->
      snd (create_customer bcrypt_hash points_default now b w)
      = failed 500 "Failed to create customer"
      /\ Pg.rows (db (fst (create_customer bcrypt_hash points_default now b w)))
         = Pg.rows (db w)
           ++ [created bcrypt_hash points_default now (Pg.serial (db w))
                 tenant mail password b])
  /\ (forall i u tenant c,
      UpdateBody.tenant_id u = Some tenant -> JS.truthy (Some tenant) = true ->
      (0 < length (updates (set_list u)))%nat ->
      c ∈ Pg.rows (db w) -> id c = i -> tenant_id c = tenant ->
      snd (update_customer now i u w) = failed 500 "Failed to update customer"
      /\ Pg.rows (db (fst (update_customer now i u w)))
         = map (fun c => if Pg.is_customer i tenant c then patch now u c else c)
             (Pg.rows (db w))).
Proof.
  intros Hdel. split.
  - intros b tenant mail password Ht Tt He Te Hp Tp Hnew.
    destruct tenant as [|c1 r1]; [discriminate|].
    destruct mail as [|c2 r2]; [discriminate|].
    destruct password as [|c3 r3]; [discriminate|].
    rewrite (create_customer_run bcrypt_hash points_default now b w
               c1 c2 c3 r1 r2 r3 Ht He Hp).
    rewrite select_existing_none by assumption. rewrite Hdel.
    split; reflexivity.
  - intros i u tenant c Ht Tt Hups Hin Hi Htn.
    destruct tenant as [|c1 r1]; [discriminate|].
    assert (Hne : updates (set_list u) <> []).
    { intros Hnil. rewrite Hnil in Hups. cbn in Hups. lia. }
    rewrite (update_customer_run now i c1 r1 u w Ht Hne).
    assert (Hf : filter (fun c => Pg.is_customer i (String c1 r1) c = true)
                   (Pg.rows (db w)) <> []).
    { apply (filter_nonempty _ _ c Hin). unfold Pg.is_customer.
      rewrite Hi, Htn, !String.eqb_refl. reflexivity. }
    destruct (filter _ (Pg.rows (db w))); [congruence|].
    rewrite Hdel. split; reflexivity.
Qed.

Lemma failed_invalidation_keeps_write_witness :
  let b := {| CreateBody.tenant_id := Some "acme"; CreateBody.email := Some "a@x.io";
              CreateBody.password := Some "pw"; CreateBody.full_name := Some "Alice";
              CreateBody.phone := None; CreateBody.address := None |} in
  let w := with_faults false false true empty_world in
  snd (create_customer (fun s => s) (Some 0) 10 b w)
  = failed 500 "Failed to create customer"
  /\ Pg.rows (db (fst (create_customer (fun s => s) (Some 0) 10 b w)))
     = [created (fun s => s) (Some 0) 10 1 "acme" "a@x.io" "pw" b].
Proof.
  intros b w.
  destruct (failed_invalidation_keeps_write (fun s => s) (Some 0) 10 w eq_refl)
    as [Hcreate _].
  apply (Hcreate b "acme" "a@x.io" "pw"); try reflexivity.
  intros c Hc. cbn in Hc. inversion Hc.
Defined.

(** ** Invariants of the store *)

Lemma identity_patch (now : Z) (u : UpdateBody.t) (c : Customer) :
  identity (patch now u c) = identity c.
Proof. reflexivity. Qed.

Lemma create_customer_rows_new (bcrypt_hash : string -> string)
    (points_default : option Z) (now : Z) (b : CreateBody.t) (w : World) :
  Pg.rows (db (fst (create_customer bcrypt_hash points_default now b w)))
  = Pg.rows (db w)
  \/ exists c,
       CreateBody.tenant_id b = Some (tenant_id c)
       /\ (forall d, d ∈ Pg.rows (db w) -> identity d <> identity c)
       /\ Pg.rows (db (fst (create_customer bcrypt_hash points_default now b w)))
          = Pg.rows (db w) ++ [c].
Proof.
  destruct (CreateBody.tenant_id b) as [[|c1 r1]|] eqn:Ht;
    try (left; unfold create_customer; rewrite Ht; reflexivity).
  destruct (CreateBody.email b) as [[|c2 r2]|] eqn:He;
    try (left; unfold create_customer; rewrite Ht, He; reflexivity).
  destruct (CreateBody.password b) as [[|c3 r3]|] eqn:Hp;
    try (left; unfold create_customer; rewrite Ht, He, Hp; reflexivity).
  rewrite (create_customer_run bcrypt_hash points_default now b w
             c1 c2 c3 r1 r2 r3 Ht He Hp).
  destruct (Pg.select_existing _ _ _) eqn:Hex; [|left; reflexivity].
  right.
  exists (created bcrypt_hash points_default now (Pg.serial (db w))
            (String c1 r1) (String c2 r2) (String c3 r3) b).
  split; [reflexivity|]. split.
  - intros d Hd. exact (select_existing_nil_inv _ _ _ d Hex Hd).
  - destruct (Redis.del_raises (redis w)); reflexivity.
Qed.

Lemma update_customer_rows_tenant (now : Z) (i tenant : string)
    (u : UpdateBody.t) (w : World) :
  UpdateBody.tenant_id u = Some tenant ->
  Pg.rows (db (fst (update_customer now i u w))) = Pg.rows (db w)
  \/ Pg.rows (db (fst (update_customer now i u w)))
     = map (fun c => if Pg.is_customer i tenant c then patch now u c else c)
         (Pg.rows (db w)).
Proof.
  intros Ht. destruct tenant as [|c r].
  - left. unfold update_customer. rewrite Ht. reflexivity.
  - destruct (updates (set_list u)) as [|it its] eqn:Hups.
    + left. unfold update_customer. rewrite Ht, Hups. reflexivity.
    + right. apply update_customer_db; [assumption|].
      rewrite Hups. discriminate.
Qed.

Section Invariants.

Variable bcrypt_hash : string -> string.
Variable points_default : option Z.

Lemma serve_unique_emails (now : Z) (r : request) (w : World) :
  unique_emails (Pg.rows (db w)) ->
  unique_emails (Pg.rows (db (fst (serve bcrypt_hash points_default now r w)))).
Proof.
  intros Hw. destruct r as [q|i tenant|b|i u|tenant]; cbn [serve].
  - rewrite list_customers_db. exact Hw.
  - rewrite get_customer_db. exact Hw.
  - destruct (create_customer_rows_new bcrypt_hash points_default now b w)
      as [->|(c & _ & Hnew & ->)]; [exact Hw|].
    unfold unique_emails. rewrite map_app. apply NoDup_app.
    split; [exact Hw|]. split; [|apply NoDup_singleton].
    intros k Hk Hk'. cbn in Hk'. apply list_elem_of_singleton in Hk'. subst k.
    apply list_elem_of_fmap in Hk as (d & Hd & Hin).
    exact (Hnew d Hin (eq_sym Hd)).
  - destruct (update_customer_rows now i u w) as [->|(tenant & ->)]; [exact Hw|].
    unfold unique_emails. rewrite map_map.
    erewrite map_ext; [exact Hw|].
    intros c. cbn. destruct (Pg.is_customer i tenant c); reflexivity.
  - rewrite customer_stats_db. exact Hw.
Qed.

(** X8: the pair [(tenant_id, email)] stays unique.  If no two stored
    customers share it, then after any run of requests still no two
    stored customers share it: a create checks the pair first, and no
    request rewrites the tenant or the e-mail of a customer. *)
Theorem unique_emails_kept (l : list (Z * request)) :
  forall w : World,
    unique_emails (Pg.rows (db w)) ->
    unique_emails (Pg.rows (db (run bcrypt_hash points_default l w))).
Proof.
  induction l as [|[now r] l IH]; intros w Hw; [exact Hw|].
  cbn [run]. apply IH. apply serve_unique_emails. exact Hw.
Qed.

(** X9: a request scoped to one tenant leaves the customers of every
    other tenant exactly as they were, at the place where they were. *)
Theorem other_tenants_untouched (now : Z) (r : request) (w : World)
    (tenant : string) (k : nat) (c : Customer) :
  tenant_of r = Some tenant ->
  Pg.rows (db w) !! k = Some c ->
  tenant_id c <> tenant ->
  Pg.rows (db (fst (serve bcrypt_hash points_default now r w))) !! k = Some c.
Proof.
  intros Hr Hk Hc. destruct r as [q|i t|b|i u|t]; cbn [serve tenant_of] in *.
  - rewrite list_customers_db. exact Hk.
  - rewrite get_customer_db. exact Hk.
  - destruct (create_customer_rows_new bcrypt_hash points_default now b w)
      as [->|(d & _ & _ & ->)]; [exact Hk|].
    apply lookup_app_l_Some. exact Hk.
  - destruct (update_customer_rows_tenant now i tenant u w Hr) as [->| ->];
      [exact Hk|].
    rewrite list_lookup_fmap, Hk. cbn. unfold Pg.is_customer.
    destruct (String.eqb_spec (tenant_id c) tenant) as [Heq|_]; [congruence|].
    rewrite andb_false_r. reflexivity.
  - rewrite customer_stats_db. exact Hk.
Qed.

End Invariants.

Lemma unique_emails_kept_witness :
  unique_emails
    (Pg.rows (db (run (fun s => s) (Some 0)
       [(10, CreateCustomer
               {| CreateBody.tenant_id := Some "acme"; CreateBody.email := Some "a@x.io";
                  CreateBody.password := Some "pw"; CreateBody.full_name := Some "Alice";
                  CreateBody.phone := None; CreateBody.address := None |});
        (11, CreateCustomer
               {| CreateBody.tenant_id := Some "acme"; CreateBody.email := Some "a@x.io";
                  CreateBody.password := Some "pw2"; CreateBody.full_name := Some "Al";
                  CreateBody.phone := None; CreateBody.address := None |})]
       empty_world))).
Proof.
  apply unique_emails_kept. unfold unique_emails. cbn. apply NoDup_nil_2.
Defined.

Lemma other_tenants_untouched_witness :
  let w := fst (create_customer (fun s => s) (Some 0) 10
                  {| CreateBody.tenant_id := Some "acme"; CreateBody.email := Some "a@x.io";
                     CreateBody.password := Some "pw"; CreateBody.full_name := Some "Alice";
                     CreateBody.phone := None; CreateBody.address := None |}
                  empty_world) in
  let u := {| UpdateBody.tenant_id := Some "globex"; UpdateBody.full_name := Some (Some "Eve");
              UpdateBody.phone := None; UpdateBody.address := None;
              UpdateBody.loyalty_points := None |} in
  Pg.rows (db (fst (serve (fun s => s) (Some 0) 20 (UpdateCustomer "1" u) w))) !! 0%nat
  = Some {| id := "1"; tenant_id := "acme"; email := "a@x.io"; password_hash := "pw";
            full_name := Some "Alice"; phone := None; address := None;
            loyalty_points := Some 0; created_at := 10; updated_at := 10 |}.
Proof.
  intros w u.
  apply (other_tenants_untouched (fun s => s) (Some 0) 20 (UpdateCustomer "1" u) w
           "globex" 0%nat);
    [reflexivity | reflexivity | cbn; discriminate].
Defined.

(** ** What a read does *)

Lemma list_customers_effect (now : Z) (q : ListQuery.t) (w : World) :
  (fst (list_customers now q w) = w
   /\ ((exists code m, snd (list_customers now q w) = failed code m)
       \/ exists tenant page,
            ListQuery.tenant_id q = Some tenant
            /\ Redis.lookup (list_key tenant (ListQuery.search q) (page_limit q)
                               (page_offset q)) now (redis w) = Some page
            /\ snd (list_customers now q w) = json page))
  \/ exists tenant cs total limit offset,
       ListQuery.tenant_id q = Some tenant
       /\ snd (list_customers now q w)
          = json (Page (map (project Pg.list_columns) cs) total limit offset)
       /\ fst (list_customers now q w)
          = {| db := db w;
               redis := Redis.store
                          (list_key tenant (ListQuery.search q) (page_limit q)
                             (page_offset q))
                          60 (Page (map (project Pg.list_columns) cs) total limit offset)
                          now (redis w) |}.
Proof.
  unfold list_customers.
  destruct (ListQuery.tenant_id q) as [[|c1 r1]|] eqn:Ht;
    try (left; split; [reflexivity | left; eexists _, _; reflexivity]).
  run_handler.
  destruct (Redis.get_raises (redis w));
    [left; split; [reflexivity | left; eexists _, _; reflexivity]|].
  destruct (Redis.lookup _ now (redis w)) as [page|] eqn:Hhit.
  { left. split; [reflexivity|]. right. exists (String c1 r1), page. auto. }
  destruct (list_statement _ _ _ _) as [query params].
  destruct (Pg.run_page query params (db w)) as [result|] eqn:Hpage;
    [|left; split; [reflexivity | left; eexists _, _; reflexivity]].
  destruct (count_statement _ _) as [countQuery countParams].
  destruct (Pg.run_count countQuery countParams (db w)) as [n|];
    [|left; split; [reflexivity | left; eexists _, _; reflexivity]].
  destruct (Redis.setex_raises (redis w));
    [left; split; [reflexivity | left; eexists _, _; reflexivity]|].
  right. cbn [fst snd].
  assert (Hres : exists cs, result = map (project Pg.list_columns) cs).
  { unfold Pg.run_page, Pg.select_page in Hpage.
    repeat (case_match; try discriminate).
    injection Hpage as <-. eauto. }
  destruct Hres as [cs ->].
  exists (String c1 r1), cs. eexists _, _, _.
  split; [reflexivity|]. split; reflexivity.
Qed.

Lemma get_customer_effect (now : Z) (i : string) (tenant : option string) (w : World) :
  (fst (get_customer now i tenant w) = w
   /\ ((exists code m, snd (get_customer now i tenant w) = failed code m)
       \/ exists t customer,
            tenant = Some t
            /\ Redis.lookup (customer_key i t) now (redis w) = Some customer
            /\ snd (get_customer now i tenant w) = json customer))
  \/ exists t c,
       tenant = Some t
       /\ snd (get_customer now i tenant w) = json (Row (project Pg.one_columns c))
       /\ fst (get_customer now i tenant w)
          = {| db := db w;
               redis := Redis.store (customer_key i t) 300
                          (Row (project Pg.one_columns c)) now (redis w) |}.
Proof.
  unfold get_customer.
  destruct tenant as [[|c1 r1]|];
    try (left; split; [reflexivity | left; eexists _, _; reflexivity]).
  run_handler.
  destruct (Redis.get_raises (redis w));
    [left; split; [reflexivity | left; eexists _, _; reflexivity]|].
  destruct (Redis.lookup _ now (redis w)) as [customer|] eqn:Hhit.
  { left. split; [reflexivity|]. right. exists (String c1 r1), customer. auto. }
  cbn. unfold Pg.select_one.
  destruct (filter _ (Pg.rows (db w))) as [|c l];
    [left; split; [reflexivity | left; eexists _, _; reflexivity]|].
  cbn [map].
  destruct (Redis.setex_raises (redis w));
    [left; split; [reflexivity | left; eexists _, _; reflexivity]|].
  right. exists (String c1 r1), c. auto.
Qed.

Lemma customer_stats_effect (now : Z) (tenant : string) (w : World) :
  (fst (customer_stats now tenant w) = w
   /\ ((exists code m, snd (customer_stats now tenant w) = failed code m)
       \/ exists stats,
            Redis.lookup (stats_key tenant) now (redis w) = Some stats
            /\ snd (customer_stats now tenant w) = json stats))
  \/ (snd (customer_stats now tenant w)
      = json (Row (Pg.select_stats tenant (Pg.rows (db w))))
      /\ fst (customer_stats now tenant w)
         = {| db := db w;
              redis := Redis.store (stats_key tenant) 120
                         (Row (Pg.select_stats tenant (Pg.rows (db w))))
                         now (redis w) |}).
Proof.
  unfold customer_stats. run_handler.
  destruct (Redis.get_raises (redis w));
    [left; split; [reflexivity | left; eexists _, _; reflexivity]|].
  destruct (Redis.lookup _ now (redis w)) as [stats|] eqn:Hhit.
  { left. split; [reflexivity|]. right. exists stats. auto. }
  cbn.
  destruct (Redis.setex_raises (redis w));
    [left; split; [reflexivity | left; eexists _, _; reflexivity]|].
  right. auto.
Qed.

(** X10: a read changes nothing but its own cache entry.  Each of the
    three read routes either leaves the world as it was (an error, or an
    answer taken from the cache), or answers 200 from the store and
    leaves the world as it was except that this answer is cached under
    the request's own key, for 60 seconds (list), 300 seconds (get one)
    or 120 seconds (stats). *)
Theorem read_caches_its_answer (now : Z) (w : World) :
  (forall q,
      fst (list_customers now q w) = w
      \/ exists tenant page,
           ListQuery.tenant_id q = Some tenant
           /\ snd (list_customers now q w) = json page
           /\ fst (list_customers now q w)
              = {| db := db w;
                   redis := Redis.store
                              (list_key tenant (ListQuery.search q) (page_limit q)
                                 (page_offset q)) 60 page now (redis w) |})
  /\ (forall i tenant,
      fst (get_customer now i tenant w) = w
      \/ exists t customer,
           tenant = Some t
           /\ snd (get_customer now i tenant w) = json customer
           /\ fst (get_customer now i tenant w)
              = {| db := db w;
                   redis := Redis.store (customer_key i t) 300 customer now (redis w) |})
  /\ (forall tenant,
      fst (customer_stats now tenant w) = w
      \/ exists stats,
           snd (customer_stats now tenant w) = json stats
           /\ fst (customer_stats now tenant w)
              = {| db := db w;
                   redis := Redis.store (stats_key tenant) 120 stats now (redis w) |}).
Proof.
  split; [|split].
  - intros q. destruct (list_customers_effect now q w)
      as [[H _]|(tenant & cs & total & limit & offset & Ht & Hr & Hw)];
      [left; exact H|].
    right. exists tenant. eexists. split; [exact Ht|]. split; [exact Hr | exact Hw].
  - intros i tenant. destruct (get_customer_effect now i tenant w)
      as [[H _]|(t & c & Ht & Hr & Hw)]; [left; exact H|].
    right. exists t. eexists. split; [exact Ht|]. split; [exact Hr | exact Hw].
  - intros tenant. destruct (customer_stats_effect now tenant w)
      as [[H _]|[Hr Hw]]; [left; exact H|].
    right. eexists. split; [exact Hr | exact Hw].
Qed.

(** ** Columns that never leave the store *)

Lemma project_names (cols : list string) (c : Customer) :
  map fst (project cols c) = cols.
Proof.
  unfold project. rewrite map_map. cbn. apply map_id.
Qed.

Lemma public_project (cols : list string) (c : Customer) :
  "password_hash" ∉ cols -> "password" ∉ cols -> public_row (project cols c).
Proof.
  intros H1 H2. unfold public_row. rewrite project_names. auto.
Qed.

Lemma public_list_row (c : Customer) : public_row (project Pg.list_columns c).
Proof. apply public_project; unfold Pg.list_columns; not_listed. Qed.

Lemma public_one_row (c : Customer) : public_row (project Pg.one_columns c).
Proof. apply public_project; unfold Pg.one_columns; not_listed. Qed.

Lemma public_created_row (c : Customer) : public_row (project Pg.created_columns c).
Proof. apply public_project; unfold Pg.created_columns; not_listed. Qed.

Lemma public_updated_row (c : Customer) : public_row (project Pg.updated_columns c).
Proof. apply public_project; unfold Pg.updated_columns; not_listed. Qed.

Lemma public_stats_row (tenant : string) (rows : list Customer) :
  public_row (Pg.select_stats tenant rows).
Proof.
  unfold public_row, Pg.select_stats. cbn [map fst]. split; not_listed.
Qed.

Lemma public_error (code : Z) (message : string) :
  public_body (body (failed code message)).
Proof. apply Forall_nil_2. Qed.

Lemma public_lookup (key : string) (now : Z) (r : Redis.t) (v : Body) :
  public_cache r -> Redis.lookup key now r = Some v -> public_body v.
Proof.
  intros Hr Hv. unfold Redis.lookup in Hv.
  destruct (Redis.entries r !! key) as [[v' e]|] eqn:Hk; [|discriminate].
  cbn in Hv. unfold Redis.live in Hv. cbn in Hv.
  destruct (now <? e); [|discriminate]. injection Hv as <-.
  exact (Hr key v' e Hk).
Qed.

Lemma public_cache_store (key : string) (ttl : Z) (v : Body) (now : Z) (r : Redis.t) :
  public_cache r -> public_body v -> public_cache (Redis.store key ttl v now r).
Proof.
  intros Hr Hv k v' e. unfold Redis.store. cbn [Redis.entries].
  rewrite lookup_insert. destruct (decide (key = k)) as [_|_].
  - intros [= <- _]. exact Hv.
  - apply Hr.
Qed.

Lemma public_cache_remove (key : string) (r : Redis.t) :
  public_cache r -> public_cache (Redis.remove key r).
Proof.
  intros Hr k v e. unfold Redis.remove. cbn [Redis.entries].
  rewrite lookup_delete. destruct (decide (key = k)) as [_|_]; [discriminate|].
  apply Hr.
Qed.

Section Public.

Variable bcrypt_hash : string -> string.
Variable points_default : option Z.

Lemma create_customer_public (now : Z) (b : CreateBody.t) (w : World) :
  public_cache (redis w) ->
  public_body (body (snd (create_customer bcrypt_hash points_default now b w)))
  /\ public_cache (redis (fst (create_customer bcrypt_hash points_default now b w))).
Proof.
  intros Hw.
  destruct (CreateBody.tenant_id b) as [[|c1 r1]|] eqn:Ht;
    try (unfold create_customer; rewrite Ht; split; [apply public_error | exact Hw]).
  destruct (CreateBody.email b) as [[|c2 r2]|] eqn:He;
    try (unfold create_customer; rewrite Ht, He; split; [apply public_error | exact Hw]).
  destruct (CreateBody.password b) as [[|c3 r3]|] eqn:Hp;
    try (unfold create_customer; rewrite Ht, He, Hp; split;
         [apply public_error | exact Hw]).
  rewrite (create_customer_run bcrypt_hash points_default now b w
             c1 c2 c3 r1 r2 r3 Ht He Hp).
  destruct (Pg.select_existing _ _ _); [|split; [apply public_error | exact Hw]].
  destruct (Redis.del_raises (redis w)); cbn [fst snd redis body];
    (split; [|try exact Hw; apply public_cache_remove; exact Hw]).
  - apply public_error.
  - apply Forall_singleton, public_created_row.
Qed.

Lemma update_customer_public (now : Z) (i : string) (u : UpdateBody.t) (w : World) :
  public_cache (redis w) ->
  public_body (body (snd (update_customer now i u w)))
  /\ public_cache (redis (fst (update_customer now i u w))).
Proof.
  intros Hw.
  destruct (UpdateBody.tenant_id u) as [[|c1 r1]|] eqn:Ht;
    try (unfold update_customer; rewrite Ht; split; [apply public_error | exact Hw]).
  destruct (updates (set_list u)) as [|it its] eqn:Hups.
  { unfold update_customer. rewrite Ht, Hups. split; [apply public_error | exact Hw]. }
  assert (Hne : updates (set_list u) <> []) by (rewrite Hups; discriminate).
  rewrite (update_customer_run now i c1 r1 u w Ht Hne).
  destruct (filter _ (Pg.rows (db w))); [split; [apply public_error | exact Hw]|].
  destruct (Redis.del_raises (redis w)); cbn [fst snd redis body].
  - split; [apply public_error | exact Hw].
  - split; [apply Forall_singleton, public_updated_row|].
    apply public_cache_remove, public_cache_remove. exact Hw.
Qed.

Lemma serve_public (now : Z) (r : request) (w : World) :
  public_cache (redis w) ->
  public_body (body (snd (serve bcrypt_hash points_default now r w)))
  /\ public_cache (redis (fst (serve bcrypt_hash points_default now r w))).
Proof.
  intros Hw. destruct r as [q|i tenant|b|i u|tenant]; cbn [serve].
  - destruct (list_customers_effect now q w)
      as [[-> [(code & m & ->)|(t & page & _ & Hhit & ->)]]
         |(t & cs & total & limit & offset & _ & -> & ->)].
    + split; [apply public_error | exact Hw].
    + split; [exact (public_lookup _ _ _ _ Hw Hhit) | exact Hw].
    + assert (Hp : public_body (Page (map (project Pg.list_columns) cs) total limit offset)).
      { unfold public_body. cbn [customers_in]. apply Forall_map.
        apply Forall_forall. intros c _. apply public_list_row. }
      split; [exact Hp|]. cbn [redis]. apply public_cache_store; assumption.
  - destruct (get_customer_effect now i tenant w)
      as [[-> [(code & m & ->)|(t & customer & _ & Hhit & ->)]]|(t & c & _ & -> & ->)].
    + split; [apply public_error | exact Hw].
    + split; [exact (public_lookup _ _ _ _ Hw Hhit) | exact Hw].
    + assert (Hp : public_body (Row (project Pg.one_columns c)))
        by apply Forall_singleton, public_one_row.
      split; [exact Hp|]. cbn [redis]. apply public_cache_store; assumption.
  - apply create_customer_public. exact Hw.
  - apply update_customer_public. exact Hw.
  - destruct (customer_stats_effect now tenant w)
      as [[-> [(code & m & ->)|(stats & Hhit & ->)]]|[-> ->]].
    + split; [apply public_error | exact Hw].
    + split; [exact (public_lookup _ _ _ _ Hw Hhit) | exact Hw].
    + assert (Hp : public_body (Row (Pg.select_stats tenant (Pg.rows (db w)))))
        by apply Forall_singleton, public_stats_row.
      split; [exact Hp|]. cbn [redis]. apply public_cache_store; assumption.
Qed.

(** X11: the password and its hash never leave the service.  Starting from
    a cache that holds no row with a [password_hash] or [password]
    column, through any run of requests, no row of any response has such
    a column, whether the response comes from the store or from the
    cache, and the cache still holds none. *)
Theorem responses_hide_password (l : list (Z * request)) :
  forall (w : World) (now : Z) (r : request),
    public_cache (redis w) ->
    public_body (body (snd (serve bcrypt_hash points_default now r
                              (run bcrypt_hash points_default l w))))
    /\ public_cache (redis (run bcrypt_hash points_default l w)).
Proof.
  induction l as [|[t r0] l IH]; intros w now r Hw; cbn [run].
  - split; [apply serve_public; exact Hw | exact Hw].
  - apply IH. apply serve_public. exact Hw.
Qed.

End Public.

Lemma responses_hide_password_witness :
  public_body
    (body (snd (serve (fun s => s) (Some 0) 12 (GetCustomer "1" (Some "acme"))
                  (run (fun s => s) (Some 0)
                     [(10, CreateCustomer
                             {| CreateBody.tenant_id := Some "acme";
                                CreateBody.email := Some "a@x.io";
                                CreateBody.password := Some "pw";
                                CreateBody.full_name := Some "Alice";
                                CreateBody.phone := None; CreateBody.address := None |})]
                     empty_world)))).
Proof.
  apply (responses_hide_password (fun s => s) (Some 0)).
  intros key v e H. cbn in H. rewrite lookup_empty in H. discriminate H.
Defined.

(** ** The search filter *)

Lemma app_cons (x : ascii) (a b : string) : String x a +:+ b = String x (a +:+ b).
Proof. reflexivity. Qed.

Lemma app_nil (b : string) : "" +:+ b = b.
Proof. reflexivity. Qed.

Lemma string_app_assoc (a b c : string) : (a +:+ b) +:+ c = a +:+ (b +:+ c).
Proof.
  induction a as [|x a IH]; [reflexivity|]. rewrite !app_cons, IH. reflexivity.
Qed.

Lemma like_percent (q t : string) :
  Pg.like (String "%" q) t
  = Pg.like q t
    || match t with
       | String _ r => Pg.like (String "%" q) r
       | EmptyString => false
       end.
Proof. destruct t; reflexivity. Qed.

Lemma like_any (t : string) : Pg.like "%" t = true.
Proof.
  induction t as [|x t IH]; [reflexivity|].
  rewrite like_percent, IH. apply orb_true_r.
Qed.

Lemma like_literal (c : ascii) (p t : string) :
  Ascii.eqb c "%" = false -> Ascii.eqb c "_" = false -> Ascii.eqb c "\" = false ->
  Pg.like (String c p) t
  = match t with
    | String x r => Ascii.eqb c x && Pg.like p r
    | EmptyString => false
    end.
Proof.
  intros H1 H2 H3. cbn [Pg.like]. rewrite H1, H2, H3. reflexivity.
Qed.

Lemma plain_cons (c : ascii) (p : string) :
  plain (String c p) = true ->
  Ascii.eqb c "%" = false /\ Ascii.eqb c "_" = false /\ Ascii.eqb c "\" = false
  /\ plain p = true.
Proof.
  cbn [plain]. rewrite !andb_true_iff, !negb_true_iff. tauto.
Qed.

(** A plain text followed by [%] matches exactly the strings it starts. *)
Lemma like_prefix (p : string) :
  plain p = true ->
  forall t, Pg.like (p +:+ "%") t = true <-> exists b, t = p +:+ b.
Proof.
  induction p as [|c p IH]; intros Hp t.
  - rewrite app_nil, like_any. split; [intros _; exists t; reflexivity | reflexivity].
  - apply plain_cons in Hp as (H1 & H2 & H3 & Hp).
    rewrite app_cons, like_literal by assumption.
    destruct t as [|x r].
    + split; [discriminate | intros [b Hb]; rewrite app_cons in Hb; discriminate Hb].
    + rewrite andb_true_iff, (IH Hp r). split.
      * intros [Hc [b ->]]. apply Ascii.eqb_eq in Hc. subst x.
        exists b. rewrite app_cons. reflexivity.
      * intros [b Hb]. rewrite app_cons in Hb. injection Hb as -> ->.
        split; [apply Ascii.eqb_refl | exists b; reflexivity].
Qed.

(** A plain text between two [%] matches exactly the strings that
    contain it. *)
Lemma like_contains (p : string) :
  plain p = true ->
  forall t, Pg.like (String "%" (p +:+ "%")) t = true <-> contains p t.
Proof.
  intros Hp t. induction t as [|x r IH].
  - rewrite like_percent, orb_false_r, (like_prefix p Hp). unfold contains. split.
    + intros [b Hb]. exists "", b. rewrite app_nil. exact Hb.
    + intros (a & b & Hab). destruct a as [|y a].
      * rewrite app_nil in Hab. exists b. exact Hab.
      * rewrite app_cons in Hab. discriminate Hab.
  - rewrite like_percent, orb_true_iff, (like_prefix p Hp), IH. unfold contains. split.
    + intros [[b Hb]|(a & b & Hab)].
      * exists "", b. rewrite app_nil. exact Hb.
      * exists (String x a), b. rewrite app_cons, Hab. reflexivity.
    + intros (a & b & Hab). destruct a as [|y a].
      * left. rewrite app_nil in Hab. exists b. exact Hab.
      * right. rewrite app_cons in Hab. injection Hab as _ ->. exists a, b. reflexivity.
Qed.

Lemma lowercase_app (a b : string) :
  Pg.lowercase (a +:+ b) = Pg.lowercase a +:+ Pg.lowercase b.
Proof.
  induction a as [|x a IH]; [reflexivity|].
  rewrite app_cons. cbn [Pg.lowercase]. rewrite app_cons, IH. reflexivity.
Qed.

Lemma lower_plain (c : ascii) :
  Ascii.eqb c "%" = false -> Ascii.eqb c "_" = false -> Ascii.eqb c "\" = false ->
  Ascii.eqb (Pg.lower c) "%" = false /\ Ascii.eqb (Pg.lower c) "_" = false
  /\ Ascii.eqb (Pg.lower c) "\" = false.
Proof.
  destruct c as [[] [] [] [] [] [] [] []]; intros H1 H2 H3;
    repeat split; solve [reflexivity | discriminate].
Qed.

Lemma lowercase_plain (s : string) : plain s = true -> plain (Pg.lowercase s) = true.
Proof.
  induction s as [|c s IH]; [reflexivity|]. intros Hs.
  apply plain_cons in Hs as (H1 & H2 & H3 & Hs).
  destruct (lower_plain c H1 H2 H3) as (L1 & L2 & L3).
  cbn [Pg.lowercase plain]. rewrite L1, L2, L3, (IH Hs). reflexivity.
Qed.

Lemma ilike_search (s t : string) :
  plain s = true -> s <> "" ->
  Pg.ilike t (search_pattern (Some s)) = true
  <-> contains (Pg.lowercase s) (Pg.lowercase t).
Proof.
  intros Hs Hne. unfold Pg.ilike, search_pattern.
  destruct s as [|c s]; [congruence|]. cbn [JS.or_else].
  change ("%" +:+ String c s +:+ "%") with (String "%" (String c s +:+ "%")).
  change (Pg.lowercase (String "%" (String c s +:+ "%")))
    with (String "%" (Pg.lowercase (String c s +:+ "%"))).
  rewrite lowercase_app. change (Pg.lowercase "%") with "%".
  apply like_contains. apply lowercase_plain. exact Hs.
Qed.

(** X12: on ASCII text the search is a case-insensitive substring match.
    For a search text of ASCII characters without [%], [_] and backslash,
    a customer whose e-mail and full name are ASCII text passes the
    filter of the list and count statements exactly when it belongs to
    the tenant and the search text, with the letters A to Z folded,
    occurs in its e-mail or in its full name; a customer without a full
    name can only match by e-mail. *)
Theorem search_matches_substring (tenant s : string) (c : Customer) :
  plain s = true -> s <> "" ->
  ascii_text s = true ->
  ascii_text (email c) = true ->
  ascii_text (default "" (full_name c)) = true ->
  Pg.list_filter tenant (filter_pattern (Some s)) c = true
  <-> tenant_id c = tenant
      /\ (contains (Pg.lowercase s) (Pg.lowercase (email c))
          \/ exists name, full_name c = Some name
               /\ contains (Pg.lowercase s) (Pg.lowercase name)).
Proof.
  intros Hs Hne _ _ _. unfold Pg.list_filter, filter_pattern.
  assert (Ht : JS.truthy (Some s) = true) by (destruct s; [congruence | reflexivity]).
  rewrite Ht, andb_true_iff, orb_true_iff, String.eqb_eq, (ilike_search s _ Hs Hne).
  unfold Pg.ilike_null. destruct (full_name c) as [name|].
  - rewrite (ilike_search s name Hs Hne). split.
    + intros [H1 [H2|H2]]; split; eauto.
    + intros [H1 [H2|(n & [= <-] & H2)]]; split; auto.
  - split.
    + intros [H1 [H2|H2]]; [split; auto | discriminate].
    + intros [H1 [H2|(n & Hn & _)]]; [split; auto | discriminate].
Qed.

Lemma search_matches_substring_witness :
  Pg.list_filter "acme" (filter_pattern (Some "ALI"))
    {| id := "1"; tenant_id := "acme"; email := "a@x.io"; password_hash := "h";
       full_name := Some "Alice"; phone := None; address := None;
       loyalty_points := None; created_at := 1; updated_at := 1 |} = true.
Proof.
  apply (search_matches_substring "acme" "ALI");
    [reflexivity | discriminate | reflexivity | reflexivity | reflexivity |].
  split; [reflexivity|]. right. exists "Alice". split; [reflexivity|].
  exists "", "ce". reflexivity.
Defined.

(** X13: wildcards in the search text are not escaped.  A search for [%]
    passes every customer of the tenant, and a search for [_] passes every
    customer of the tenant whose e-mail is not empty, although neither
    character need occur in the e-mail or the name. *)
Theorem search_wildcards_not_escaped (tenant : string) (rows : list Customer) :
  matching tenant (Some "%") rows = customers_of tenant rows
  /\ (forall c, c ∈ customers_of tenant rows -> email c <> "" ->
        c ∈ matching tenant (Some "_") rows).
Proof.
  split.
  - unfold matching, customers_of. apply list_filter_iff. intros c.
    unfold Pg.list_filter, filter_pattern. cbn [JS.truthy].
    assert (H : Pg.ilike (email c) (search_pattern (Some "%")) = true).
    { unfold Pg.ilike. change (Pg.lowercase (search_pattern (Some "%")))
        with (String "%" (String "%" "%")).
      rewrite like_percent. rewrite (like_percent "%"), like_any. reflexivity. }
    rewrite H, orb_true_l, andb_true_r. apply String.eqb_eq.
  - intros c Hc Hmail. unfold customers_of in Hc.
    apply list_elem_of_filter in Hc as [Ht Hin].
    unfold matching. apply list_elem_of_filter. split; [|exact Hin].
    unfold Pg.list_filter, filter_pattern. cbn [JS.truthy].
    apply andb_true_iff. split; [apply String.eqb_eq; exact Ht|].
    apply orb_true_iff. left. unfold Pg.ilike.
    change (Pg.lowercase (search_pattern (Some "_")))
      with (String "%" (String "_" "%")).
    destruct (email c) as [|x r]; [congruence|].
    cbn [Pg.lowercase]. rewrite like_percent.
    change (Pg.like (String "_" "%") (String (Pg.lower x) (Pg.lowercase r)))
      with (Pg.like "%" (Pg.lowercase r)).
    rewrite like_any. reflexivity.
Qed.

Lemma search_wildcards_not_escaped_witness :
  let c := {| id := "1"; tenant_id := "acme"; email := "a@x.io"; password_hash := "h";
              full_name := None; phone := None; address := None;
              loyalty_points := None; created_at := 1; updated_at := 1 |} in
  c ∈ matching "acme" (Some "_") [c].
Proof.
  intros c.
  apply (proj2 (search_wildcards_not_escaped "acme" [c]));
    [vm_compute; apply list_elem_of_here | cbn; discriminate].
Defined.

(** ** Cached stats and writes *)








(** ** More on [parseInt] *)

Lemma pretty_N_go_app (x : N) :
  forall s, pretty_N_go x s = pretty_N_go x "" +:+ s.
Proof.
  induction (N.lt_wf_0 x) as [x _ IH]. intros s.
  destruct (decide (x = 0)%N) as [->|Hx]; [rewrite !pretty_N_go_0; reflexivity|].
  rewrite (pretty_N_go_step x s), (pretty_N_go_step x "") by lia.
  assert (Hlt : (x `div` 10 < x)%N) by (apply N.div_lt; lia).
  rewrite (IH _ Hlt (String _ s)), (IH _ Hlt (String _ "")).
  rewrite string_app_assoc. reflexivity.
Qed.

Lemma parseInt_positive_prefix (p : positive) (c : ascii) (r : string) :
  JS.digit_of 10 c = None ->
  JS.parseInt (pretty (N.pos p) +:+ String c r) = JS.double (Z.pos p)
  /\ JS.parseInt ("-" +:+ pretty (N.pos p) +:+ String c r) = JS.double (Z.neg p).
Proof.
  intros Hc. unfold pretty, pretty_N.
  destruct (decide (N.pos p = 0)%N) as [|_]; [lia|].
  rewrite <- pretty_N_go_app.
  destruct (pretty_go_leading (N.pos p) (String c r)) as (c0 & r0 & Hlead & Heq); [lia|].
  change ("-" +:+ pretty_N_go (N.pos p) (String c r))
    with (String "-" (pretty_N_go (N.pos p) (String c r))).
  rewrite Heq. destruct (parseInt_leading c0 r0 Hlead) as [-> ->].
  rewrite <- Heq, parse_digits_pretty_go by lia.
  cbn [JS.parse_digits]. rewrite Hc. split; reflexivity.
Qed.

Lemma parseInt_prefix (z : Z) (c : ascii) (r : string) :
  JS.digit_of 10 c = None ->
  z <> 0 \/ (c <> "x"%char /\ c <> "X"%char) ->
  JS.parseInt (pretty z +:+ String c r) = JS.double z.
Proof.
  intros Hc Hz. destruct z as [|p|p].
  - destruct Hz as [Hz|[Hx HX]]; [congruence|].
    change (pretty 0 +:+ String c r) with (String "0" (String c r)).
    destruct c as [[] [] [] [] [] [] [] []];
      try discriminate Hc; try congruence; reflexivity.
  - change (pretty (Z.pos p)) with (pretty (N.pos p)).
    apply parseInt_positive_prefix. exact Hc.
  - change (pretty (Z.neg p)) with ("-" +:+ pretty (N.pos p)).
    rewrite string_app_assoc. apply parseInt_positive_prefix. exact Hc.
Qed.

(** X15: the bounds of a list request are read up to the first character
    that is not a digit.  A [limit] or [offset] made of the decimal text
    of an integer of magnitude up to [2 ^ 53], then a character that is
    not a decimal digit, then anything, is bound to [LIMIT] or [OFFSET]
    as that integer; for the text [0] this holds unless the next
    character is [x] or [X], which starts a hexadecimal number.  So
    [limit=10abc] is a limit of 10. *)
Theorem bounds_read_decimal_prefix (tenant : string) (q : ListQuery.t)
    (z : Z) (c : ascii) (r : string) :
  Z.abs z <= 2 ^ 53 ->
  JS.digit_of 10 c = None ->
  z <> 0 \/ (c <> "x"%char /\ c <> "X"%char) ->
  (ListQuery.limit q = Some (pretty z +:+ String c r) ->
   fst (page_bounds tenant q) = VNum (Some z))
  /\ (ListQuery.offset q = Some (pretty z +:+ String c r) ->
      snd (page_bounds tenant q) = VNum (Some z)).
Proof.
  intros Hsafe Hc Hz. rewrite page_bounds_parsed. unfold page_limit, page_offset.
  split; intros ->; cbn [fst snd JS.with_default];
    rewrite (parseInt_prefix z c r Hc Hz), (double_exact z Hsafe); reflexivity.
Qed.

Lemma bounds_read_decimal_prefix_witness :
  fst (page_bounds "acme"
         {| ListQuery.tenant_id := Some "acme"; ListQuery.search := None;
            ListQuery.limit := Some "10abc"; ListQuery.offset := None |})
  = VNum (Some 10).
Proof.
  destruct (bounds_read_decimal_prefix "acme"
              {| ListQuery.tenant_id := Some "acme"; ListQuery.search := None;
                 ListQuery.limit := Some "10abc"; ListQuery.offset := None |}
              10 "a" "bc") as [H _];
    [vm_compute; discriminate | reflexivity | left; lia |].
  apply H. reflexivity.
Defined.

(** ** Cache keys *)

Lemma colon_free_cons (c : ascii) (s : string) :
  colon_free (String c s) = true -> c <> ":"%char /\ colon_free s = true.
Proof.
  cbn [colon_free]. rewrite andb_true_iff, negb_true_iff. intros [Hc Hs].
  split; [|exact Hs]. intros ->. discriminate Hc.
Qed.

Lemma split_colon (a a' b b' : string) :
  colon_free a = true -> colon_free a' = true ->
  a +:+ ":" +:+ b = a' +:+ ":" +:+ b' -> a = a' /\ b = b'.
Proof.
  revert a'. induction a as [|x a IH]; intros [|y a'] Ha Ha' H.
  - rewrite !app_nil in H. apply String.app_inj in H. subst b'. auto.
  - rewrite app_nil, app_cons in H. injection H as <- _.
    apply colon_free_cons in Ha' as [Hy _]. congruence.
  - rewrite app_nil, app_cons in H. injection H as -> _.
    apply colon_free_cons in Ha as [Hx _]. congruence.
  - rewrite !app_cons in H. injection H as -> H.
    apply colon_free_cons in Ha as [_ Ha]. apply colon_free_cons in Ha' as [_ Ha'].
    destruct (IH a' Ha Ha' H) as [-> ->]. auto.
Qed.

(** X16: when tenant, search and limit have no colon in them, the cache
    key of a page determines the request: two list requests share a key
    only if they have the same tenant, the same [limit] and [offset]
    texts and the same search, where a missing or empty search counts as
    the search text [all]. *)
Theorem list_key_determines_request (t1 t2 : string) (s1 s2 : option string)
    (l1 l2 o1 o2 : string) :
  colon_free t1 = true -> colon_free t2 = true ->
  colon_free (JS.or_else s1 "all") = true ->
  colon_free (JS.or_else s2 "all") = true ->
  colon_free l1 = true -> colon_free l2 = true ->
  list_key t1 s1 l1 o1 = list_key t2 s2 l2 o2 ->
  t1 = t2 /\ JS.or_else s1 "all" = JS.or_else s2 "all" /\ l1 = l2 /\ o1 = o2.
Proof.
  intros Ht1 Ht2 Hs1 Hs2 Hl1 Hl2 H. unfold list_key in H.
  apply String.app_inj in H.
  apply split_colon in H as [-> H]; [|assumption..].
  apply split_colon in H as [-> H]; [|assumption..].
  apply split_colon in H as [-> ->]; [|assumption..].
  auto.
Qed.

Lemma list_key_determines_request_witness :
  "acme" = "acme" /\ JS.or_else None "all" = JS.or_else (Some "all") "all"
  /\ "10" = "10" /\ "0" = "0".
Proof.
  apply (list_key_determines_request "acme" "acme" None (Some "all") "10" "10" "0" "0");
    reflexivity.
Defined.

(** ** The page of a list request *)



(** X18: the list total is the stats count, read back.  Answered from the
    store at the same moment, the stats request of a tenant reports the
    number of the tenant's customers as decimal text, and the tenant's
    list request without search reports as [total] what [parseInt] reads
    from that same text. *)
Theorem stats_count_is_list_total (now : Z) (q : ListQuery.t) (w : World)
    (tenant : string) (l o : Z) :
  ListQuery.tenant_id q = Some tenant ->
  JS.truthy (Some tenant) = true ->
  JS.truthy (ListQuery.search q) = false ->
  JS.parseInt (page_limit q) = Some l -> 0 <= l <= 2 ^ 53 ->
  JS.parseInt (page_offset q) = Some o -> 0 <= o <= 2 ^ 53 ->
  Redis.get_raises (redis w) = false ->
  Redis.setex_raises (redis w) = false ->
  Redis.lookup (list_key tenant (ListQuery.search q) (page_limit q) (page_offset q))
    now (redis w) = None ->
  Redis.lookup (stats_key tenant) now (redis w) = None ->
  exists (count : string) (customers : list row) (sums : row),
    count = pretty (N.of_nat (length (customers_of tenant (Pg.rows (db w)))))
    /\ snd (customer_stats now tenant w)
       = json (Row (("total_customers", VText count) :: sums))
    /\ snd (list_customers now q w)
       = json (Page customers (JS.parseInt count) (Some l) (Some o)).
Proof.
  intros Ht Htruthy Hs Hl Hl0 Ho Ho0 Hget Hset Hmiss Hmiss'.
  rewrite (list_customers_miss now q w tenant l o Ht Htruthy Hl Hl0 Ho Ho0
             Hget Hset Hmiss).
  cbn [snd]. unfold page_of. rewrite (matching_no_search _ _ _ Hs).
  eexists _, _, _. split; [reflexivity|]. split.
  - unfold customer_stats. run_handler. rewrite Hget, Hmiss'. cbn. rewrite Hset.
    unfold Pg.select_stats. rewrite tenant_filter_customers_of. reflexivity.
  - rewrite parseInt_pretty_N, nat_N_Z. reflexivity.
Qed.

Lemma stats_count_is_list_total_witness :
  let w := fst (create_customer (fun s => s) (Some 0) 10
                  {| CreateBody.tenant_id := Some "acme"; CreateBody.email := Some "a@x.io";
                     CreateBody.password := Some "pw"; CreateBody.full_name := Some "Alice";
                     CreateBody.phone := None; CreateBody.address := None |}
                  empty_world) in
  let q := {| ListQuery.tenant_id := Some "acme"; ListQuery.search := None;
              ListQuery.limit := None; ListQuery.offset := None |} in
  exists (count : string) (customers : list row) (sums : row),
    count = pretty (N.of_nat (length (customers_of "acme" (Pg.rows (db w)))))
    /\ snd (customer_stats 12 "acme" w)
       = json (Row (("total_customers", VText count) :: sums))
    /\ snd (list_customers 12 q w)
       = json (Page customers (JS.parseInt count) (Some 50) (Some 0)).
Proof.
  intros w q.
  apply (stats_count_is_list_total 12 q w "acme" 50 0);
    [reflexivity | reflexivity | reflexivity | reflexivity
    | vm_compute; split; discriminate | reflexivity
    | vm_compute; split; discriminate | reflexivity | reflexivity
    | reflexivity | reflexivity].
Defined.

(** ** Staleness ends with the entry *)



